(** * Garmin Connect web API wrapper: the request handlers of [api/main.py]

    A shallow embedding of the FastAPI handlers of [src/api/main.py] and the
    properties of its session lifecycle, fault translation and download
    envelope.

    The handlers delegate all real work to the third-party [garminconnect]
    client and to the operating system.  Those collaborators are not part of
    the program; they are modelled as a record of answers ([Upstream]) that
    fixes, for the duration of one request, what each library call returns
    or raises.  Every handler is a computation in a small monad that threads
    the token store, records the library calls it makes, and either returns
    a value or raises.  The token store is read by the client's [login] when
    it is pointed to a path, and written by [garth.dump] alone. *)

From Stdlib Require Import ZArith NArith Lia.
From Stdlib.Strings Require Import Byte.
From stdpp Require Import base option list strings gmap.

Local Open Scope string_scope.
Local Open Scope list_scope.
Local Open Scope Z_scope.

(** ** Python values and exceptions *)

#[local] Set Warnings "-register-all".

(** The values that cross the boundary with the client library: JSON-like
    data, the sentinel string of a pending second factor, token objects. *)
Inductive PyVal : Type :=
| PyNone
| PyBool (b : bool)
| PyInt (n : Z)
| PyStr (s : string)
| PyList (items : list PyVal)
| PyDict (entries : list (string * PyVal))
| PyObj (repr : string).

(** [v == s] for a Python value [v] and a string literal [s]. *)
Definition py_eq_str (v : PyVal) (s : string) : bool :=
  match v with
  | PyStr s' => bool_decide (s' = s)
  | _ => false
  end.

(** Truthiness of an optional string such as the result of [os.getenv]:
    [None] and the empty string are falsy. *)
Definition truthy (o : option string) : bool :=
  match o with
  | Some s => negb (bool_decide (s = ""))
  | None => false
  end.

(** [a or b] where [a] is an optional string and [b] a string. *)
Definition py_or (a : option string) (b : string) : string :=
  match a with
  | Some s => if bool_decide (s = "") then b else s
  | None => b
  end.

(** The exception classes the handlers distinguish.  The three
    [GarminConnect*] classes derive directly from [Exception] in the client
    library, so [isinstance] is a comparison of class tags. *)
Inductive ExcClass : Type :=
| FileNotFoundError
| GarminConnectAuthenticationError
| GarminConnectTooManyRequestsError
| GarminConnectConnectionError
| OtherException (name : string).

(** An exception instance: its class and what [str(err)] renders.  These
    are the instances of [Exception]; interpreter exits ([KeyboardInterrupt],
    [SystemExit]) are not modelled. *)
Record Exception : Type := Exc { exc_class : ExcClass; exc_str : string }.

Definition is_FileNotFoundError (err : Exception) : bool :=
  match exc_class err with FileNotFoundError => true | _ => false end.
Definition is_GarminConnectAuthenticationError (err : Exception) : bool :=
  match exc_class err with GarminConnectAuthenticationError => true | _ => false end.
Definition is_GarminConnectTooManyRequestsError (err : Exception) : bool :=
  match exc_class err with GarminConnectTooManyRequestsError => true | _ => false end.
Definition is_GarminConnectConnectionError (err : Exception) : bool :=
  match exc_class err with GarminConnectConnectionError => true | _ => false end.

(** What leaves a handler when it does not return: an [HTTPException]
    raised by the handler itself, or a library exception nobody caught. *)
Inductive Raised : Type :=
| HTTPException (status_code : Z) (detail : string)
| Unhandled (err : Exception).

Inductive Outcome (E A : Type) : Type :=
| Return (a : A)
| Raise (e : E).
Arguments Return {E A} a.
Arguments Raise {E A} e.

(** ** Request and response models *)

Record LoginRequest : Type := {
  email : option string;
  password : option string;
  is_cn : bool;
  return_on_mfa : bool
}.

Record LoginResponse : Type := {
  status : string;
  client_state : PyVal
}.

Record ResumeLoginRequest : Type := {
  resume_client_state : PyVal;
  mfa_code : string
}.

Record DownloadResponse : Type := {
  activity_id : string;
  format : string;
  data_base64 : string
}.

Record SummaryResponse : Type := { summary_data : PyVal }.

Record ActivitiesResponse : Type := { activities_data : PyVal }.

Record WhoamiResponse : Type := {
  full_name : PyVal;
  unit_system : PyVal
}.

(** ** The client library *)

(** A [Garmin] client object is identified by its constructor arguments. *)
Record Garmin : Type := {
  g_email : option string;
  g_password : option string;
  g_is_cn : bool;
  g_return_on_mfa : bool
}.

(** [Garmin()] *)
Definition Garmin_default : Garmin :=
  {| g_email := None; g_password := None; g_is_cn := false; g_return_on_mfa := false |}.

(** [Garmin(email=body.email, password=body.password, is_cn=body.is_cn,
    return_on_mfa=body.return_on_mfa)] *)
Definition Garmin_of_body (body : LoginRequest) : Garmin :=
  {| g_email := email body; g_password := password body;
     g_is_cn := is_cn body; g_return_on_mfa := return_on_mfa body |}.

(** [Garmin(return_on_mfa=True)] *)
Definition Garmin_resume : Garmin :=
  {| g_email := None; g_password := None; g_is_cn := false; g_return_on_mfa := true |}.

Inductive ActivityDownloadFormat : Type := ORIGINAL | TCX | GPX | KML | CSV.

(** What [getattr(Garmin.ActivityDownloadFormat, fmt)] can evaluate to: a
    member of the enumeration, or another attribute of the enum class. *)
Inductive DlFmt : Type :=
| Member (m : ActivityDownloadFormat)
| ClassAttr (name : string).

(** The pair of values a login leaves in the session and [dump] serialises. *)
Definition Tokens : Type := PyVal * PyVal.

(** The token store: the serialised tokens found at each path. *)
Abbreviation Store := (gmap string Tokens).

(** The answers of the collaborators during one request.  Within one request
    no handler issues the same call twice, so a function of the arguments
    describes every possible behaviour, network failures included. *)
Record Upstream : Type := {
  (** [os.getenv(name)] *)
  os_getenv : string -> option string;
  (** [os.path.expanduser(path)] *)
  expanduser : string -> string;
  (** [garmin.login(tokenstore)] and [garmin.login()]; the last argument
      is what the token store holds at [tokenstore] *)
  garmin_login : Garmin -> option string -> option Tokens -> Outcome Exception Tokens;
  (** [garmin.resume_login(client_state, mfa_code)] *)
  garmin_resume_login : Garmin -> PyVal -> string -> Outcome Exception Tokens;
  (** whether [garmin.garth.dump(path)] raises, and what *)
  garth_dump : Garmin -> string -> option Exception;
  garmin_get_user_summary : Garmin -> string -> Outcome Exception PyVal;
  garmin_get_activities : Garmin -> Z -> Z -> option string -> Outcome Exception PyVal;
  garmin_download_activity : Garmin -> string -> DlFmt -> Outcome Exception (list byte);
  garmin_get_full_name : Garmin -> Outcome Exception PyVal;
  garmin_get_unit_system : Garmin -> Outcome Exception PyVal;
  (** [getattr(Garmin.ActivityDownloadFormat, name)] for a [name] that is
      not a member: [None] when the enum class has such an attribute, else
      the [AttributeError] raised *)
  enum_getattr_other : string -> option Exception
}.

(** The library calls a handler makes, in order. *)
Inductive Call : Type :=
| CallLogin (g : Garmin) (tokenstore : option string)
| CallResumeLogin (g : Garmin) (cs : PyVal) (code : string)
| CallDump (g : Garmin) (path : string)
| CallGetUserSummary (g : Garmin) (cdate : string)
| CallGetActivities (g : Garmin) (start limit : Z) (activitytype : option string)
| CallDownloadActivity (g : Garmin) (id : string) (fmt : DlFmt)
| CallGetFullName (g : Garmin)
| CallGetUnitSystem (g : Garmin).

(** ** The handler monad *)

(** One run of a computation: how it ended, the token store it left, and
    the library calls it made. *)
Record Run (E A : Type) : Type := MkRun {
  outcome : Outcome E A;
  store_after : Store;
  calls : list Call
}.
Arguments MkRun {E A} outcome store_after calls.
Arguments outcome {E A} r.
Arguments store_after {E A} r.
Arguments calls {E A} r.

Definition M (E A : Type) : Type := Store -> Run E A.

Definition ret {E A} (a : A) : M E A :=
  fun s => MkRun (Return a) s [].

Definition raise {E A} (e : E) : M E A :=
  fun s => MkRun (Raise e) s [].

Definition bind {E A B} (m : M E A) (k : A -> M E B) : M E B :=
  fun s =>
    match m s with
    | MkRun (Return a) s1 calls1 =>
        match k a s1 with
        | MkRun o s2 calls2 => MkRun o s2 (calls1 ++ calls2)
        end
    | MkRun (Raise e) s1 calls1 => MkRun (Raise e) s1 calls1
    end.

Notation "x <- m ;; k" := (bind m (fun x => k))
  (at level 20, m at level 99, k at level 200, format "x  <-  m ;;  '/' k").
Notation "m ;; k" := (bind m (fun _ => k))
  (at level 100, k at level 200, right associativity).

(** [try: m  except (classes) as err: h err]: exceptions that [catches]
    rejects propagate through [inj]. *)
Definition try_except {E E' A} (m : M E A) (catches : E -> bool)
    (inj : E -> E') (h : E -> M E' A) : M E' A :=
  fun s =>
    match m s with
    | MkRun (Return a) s1 calls1 => MkRun (Return a) s1 calls1
    | MkRun (Raise e) s1 calls1 =>
        if catches e then
          match h e s1 with
          | MkRun o s2 calls2 => MkRun o s2 (calls1 ++ calls2)
          end
        else MkRun (Raise (inj e)) s1 calls1
    end.

(** A library call made outside any [try]: its exception leaves the
    handler as it is. *)
Definition uncaught {A} (m : M Exception A) : M Raised A :=
  try_except m (fun _ => false) Unhandled (fun e => raise (Unhandled e)).

(** [except Exception] catches every exception instance. *)
Definition any_Exception (err : Exception) : bool := true.

(** A library call: recorded, then answered by the upstream.  It leaves
    the token store alone: [dump], below, is the one call that writes it. *)
Definition call {A} (c : Call) (answer : Outcome Exception A) : M Exception A :=
  fun s => MkRun answer s [c].

(** What the token store holds at the path a login is pointed to. *)
Definition stored_at (s : Store) (tokenstore : option string) : option Tokens :=
  match tokenstore with
  | Some path => s !! path
  | None => None
  end.

(** A step that touches neither the store nor the library. *)
Definition pure_step {E A} (o : Outcome E A) : M E A :=
  fun s => MkRun o s [].

(** ** Base64 (RFC 4648, standard alphabet, [=] padding)

    [base64.b64encode] of the Python standard library, and the decoding a
    consumer of the download envelope applies to [data_base64]. *)

Module Base64.

Local Open Scope N_scope.

Definition alphabet : list byte :=
  String.list_byte_of_string
    "ABCDEFGHIJKLMNOPQRSTUVWXYZabcdefghijklmnopqrstuvwxyz0123456789+/".

Definition pad : byte := "="%byte.

(** The character of a six-bit value. *)
Definition char_of (d : N) : byte := nth (N.to_nat d) alphabet pad.

Fixpoint position (c : byte) (l : list byte) (i : N) : option N :=
  match l with
  | [] => None
  | x :: l' => if Byte.eqb c x then Some i else position c l' (N.succ i)
  end.

(** The six-bit value of a character of the alphabet. *)
Definition index_of (c : byte) : option N := position c alphabet 0.

(** Three bytes are read as one 24-bit number and written as four
    six-bit characters. *)
Definition encode3 (a b c : byte) : list byte :=
  let n := Byte.to_N a * 65536 + Byte.to_N b * 256 + Byte.to_N c in
  [char_of (n / 262144); char_of (n / 4096 mod 64);
   char_of (n / 64 mod 64); char_of (n mod 64)].

(** A trailing pair of bytes: 16 bits, padded with two zero bits. *)
Definition encode2 (a b : byte) : list byte :=
  let n := (Byte.to_N a * 256 + Byte.to_N b) * 4 in
  [char_of (n / 4096); char_of (n / 64 mod 64); char_of (n mod 64); pad].

(** A trailing single byte: 8 bits, padded with four zero bits. *)
Definition encode1 (a : byte) : list byte :=
  let n := Byte.to_N a * 16 in
  [char_of (n / 64); char_of (n mod 64); pad; pad].

Fixpoint b64encode (s : list byte) : list byte :=
  match s with
  | [] => []
  | [a] => encode1 a
  | [a; b] => encode2 a b
  | a :: b :: c :: rest => encode3 a b c ++ b64encode rest
  end.

Definition decode4 (c1 c2 c3 c4 : byte) : option (list byte) :=
  d1 ← index_of c1; d2 ← index_of c2; d3 ← index_of c3; d4 ← index_of c4;
  let n := d1 * 262144 + d2 * 4096 + d3 * 64 + d4 in
  b1 ← Byte.of_N (n / 65536); b2 ← Byte.of_N (n / 256 mod 256);
  b3 ← Byte.of_N (n mod 256);
  Some [b1; b2; b3].

Definition decode3 (c1 c2 c3 : byte) : option (list byte) :=
  d1 ← index_of c1; d2 ← index_of c2; d3 ← index_of c3;
  let n := d1 * 4096 + d2 * 64 + d3 in
  b1 ← Byte.of_N (n / 1024); b2 ← Byte.of_N (n / 4 mod 256);
  Some [b1; b2].

Definition decode2 (c1 c2 : byte) : option (list byte) :=
  d1 ← index_of c1; d2 ← index_of c2;
  let n := d1 * 64 + d2 in
  b1 ← Byte.of_N (n / 16);
  Some [b1].

(** Groups of four characters; padding is accepted in the last group only. *)
Fixpoint b64decode (s : list byte) : option (list byte) :=
  match s with
  | [] => Some []
  | c1 :: c2 :: c3 :: c4 :: rest =>
      if Byte.eqb c4 pad then
        match rest with
        | [] => if Byte.eqb c3 pad then decode2 c1 c2 else decode3 c1 c2 c3
        | _ :: _ => None
        end
      else
        g ← decode4 c1 c2 c3 c4; r ← b64decode rest; Some (g ++ r)
  | _ => None
  end.

(** [bs.decode("ascii")]: fails on a byte outside the ASCII range. *)
Definition decode_ascii (bs : list byte) : Outcome Exception string :=
  if forallb (fun b => Byte.to_N b <? 128) bs
  then Return (String.string_of_list_byte bs)
  else Raise (Exc (OtherException "UnicodeDecodeError")
                  "'ascii' codec can't decode byte: ordinal not in range(128)").

(** What a consumer computes from the [data_base64] field. *)
Definition b64decode_str (s : string) : option (list byte) :=
  b64decode (String.list_byte_of_string s).

End Base64.

(** ** The module [api/main.py] *)

Section Handlers.

Variable w : Upstream.

(** [garmin.login(tokenstore)] / [garmin.login()]: given a path, the
    client reads the token store there. *)
Definition login_call (g : Garmin) (tokenstore : option string) : M Exception Tokens :=
  fun s =>
    call (CallLogin g tokenstore) (garmin_login w g tokenstore (stored_at s tokenstore)) s.

(** [garmin.garth.dump(tokenstore)]: a completed dump leaves the session's
    tokens at the path; a dump that raises is taken to leave the store as it
    found it. *)
Definition dump_call (g : Garmin) (tokens : Tokens) (tokenstore : string) : M Exception unit :=
  fun s =>
    match garth_dump w g tokenstore with
    | None => MkRun (Return tt) (<[tokenstore := tokens]> s) [CallDump g tokenstore]
    | Some err => MkRun (Raise err) s [CallDump g tokenstore]
    end.

(** [_instantiate_api_from_tokenstore]: the client when the stored session
    loads, [None] when the store is missing or rejected. *)
Definition _instantiate_api_from_tokenstore (tokenstore : string) : M Exception (option Garmin) :=
  let garmin := Garmin_default in
  try_except
    (login_call garmin (Some tokenstore) ;;
     ret (Some garmin))
    (fun err => is_FileNotFoundError err || is_GarminConnectAuthenticationError err)
    (fun err => err)
    (fun _ => ret None).

(** [_raise_from_err]: written as the source has it, a sequence of
    [isinstance] tests each ending in a [raise]; the result type [unit] is
    the implicit [None] of a Python function that runs off its end. *)
Definition _raise_from_err (err : Exception) : M Raised unit :=
  if is_GarminConnectAuthenticationError err then
    raise (HTTPException 401 "Authentication error")
  else if is_GarminConnectTooManyRequestsError err then
    raise (HTTPException 429 "Too many requests")
  else if is_GarminConnectConnectionError err then
    raise (HTTPException 502 "Upstream connection error")
  else
    raise (HTTPException 500 (exc_str err)).

(** [try: body  except Exception as err: _raise_from_err(err)], the shape
    of every handler's tail.  Should the translator return, the handler
    would run off its end and answer [None]. *)
Definition guarded {A} (body : M Exception A) : M Raised (option A) :=
  try_except (a <- body ;; ret (Some a)) any_Exception Unhandled
    (fun err => _raise_from_err err ;; ret None).

(** [GET /healthz] *)
Definition healthz : M Raised (option string) :=
  ret (Some "ok").

(** [POST /login].  [with_credentials] is the second half of the function,
    reached when the first half does not return: the variable is falsy, or
    no stored session could be loaded. *)
Definition login (body : LoginRequest) : M Raised (option LoginResponse) :=
  let tokenstore_env := os_getenv w "GARMINTOKENS" in
  let with_credentials :=
    let garmin := Garmin_of_body body in
    guarded
      (tokens <- login_call garmin None ;;
       let '(token1, token2) := tokens in
       if py_eq_str token1 "needs_mfa" then
         ret {| status := "needs_mfa"; client_state := token2 |}
       else
         let tokenstore := py_or tokenstore_env (expanduser w "~/.garminconnect") in
         try_except (dump_call garmin tokens tokenstore) any_Exception (fun err => err)
           (fun _ => ret tt) ;;
         ret {| status := "ok"; client_state := PyNone |})
  in
  if truthy tokenstore_env then
    garmin <- uncaught (_instantiate_api_from_tokenstore (default "" tokenstore_env)) ;;
    match garmin with
    | Some _ => ret (Some {| status := "ok"; client_state := PyNone |})
    | None => with_credentials
    end
  else with_credentials.

(** [POST /login/resume] *)
Definition resume_login (body : ResumeLoginRequest) : M Raised (option LoginResponse) :=
  let garmin := Garmin_resume in
  guarded
    (tokens <- call (CallResumeLogin garmin (resume_client_state body) (mfa_code body))
                 (garmin_resume_login w garmin (resume_client_state body) (mfa_code body)) ;;
     let tokenstore := py_or (os_getenv w "GARMINTOKENS") (expanduser w "~/.garminconnect") in
     try_except (dump_call garmin tokens tokenstore) any_Exception (fun err => err)
       (fun _ => ret tt) ;;
     ret {| status := "ok"; client_state := PyNone |}).

(** [GET /summary] *)
Definition get_user_summary (cdate : string) : M Raised (option SummaryResponse) :=
  let tokenstore := py_or (os_getenv w "GARMINTOKENS") (expanduser w "~/.garminconnect") in
  garmin <- uncaught (_instantiate_api_from_tokenstore tokenstore) ;;
  match garmin with
  | None => raise (HTTPException 401 "Not logged in. Use /login first.")
  | Some garmin =>
  guarded
    (data <- call (CallGetUserSummary garmin cdate) (garmin_get_user_summary w garmin cdate) ;;
     ret {| summary_data := data |})
  end.

(** [GET /activities] *)
Definition get_activities (start limit : Z) (activitytype : option string)
    : M Raised (option ActivitiesResponse) :=
  let tokenstore := py_or (os_getenv w "GARMINTOKENS") (expanduser w "~/.garminconnect") in
  garmin <- uncaught (_instantiate_api_from_tokenstore tokenstore) ;;
  match garmin with
  | None => raise (HTTPException 401 "Not logged in. Use /login first.")
  | Some garmin =>
  guarded
    (data <- call (CallGetActivities garmin start limit activitytype)
               (garmin_get_activities w garmin start limit activitytype) ;;
     ret {| activities_data := data |})
  end.

(** [getattr(Garmin.ActivityDownloadFormat, fmt)] *)
Definition getattr_ActivityDownloadFormat (fmt : string) : Outcome Exception DlFmt :=
  if bool_decide (fmt = "ORIGINAL") then Return (Member ORIGINAL)
  else if bool_decide (fmt = "TCX") then Return (Member TCX)
  else if bool_decide (fmt = "GPX") then Return (Member GPX)
  else if bool_decide (fmt = "KML") then Return (Member KML)
  else if bool_decide (fmt = "CSV") then Return (Member CSV)
  else match enum_getattr_other w fmt with
       | None => Return (ClassAttr fmt)
       | Some err => Raise err
       end.

(** [GET /activities/{activity_id}/download] *)
Definition download_activity (activity_id fmt : string) : M Raised (option DownloadResponse) :=
  let tokenstore := py_or (os_getenv w "GARMINTOKENS") (expanduser w "~/.garminconnect") in
  garmin <- uncaught (_instantiate_api_from_tokenstore tokenstore) ;;
  match garmin with
  | None => raise (HTTPException 401 "Not logged in. Use /login first.")
  | Some garmin =>
  guarded
    (fmt_enum <- pure_step (getattr_ActivityDownloadFormat fmt) ;;
     raw <- call (CallDownloadActivity garmin activity_id fmt_enum)
              (garmin_download_activity w garmin activity_id fmt_enum) ;;
     text <- pure_step (Base64.decode_ascii (Base64.b64encode raw)) ;;
     ret {| activity_id := activity_id; format := fmt; data_base64 := text |})
  end.

(** [GET /whoami] *)
Definition whoami : M Raised (option WhoamiResponse) :=
  let tokenstore := py_or (os_getenv w "GARMINTOKENS") (expanduser w "~/.garminconnect") in
  garmin <- uncaught (_instantiate_api_from_tokenstore tokenstore) ;;
  match garmin with
  | None => raise (HTTPException 401 "Not logged in. Use /login first.")
  | Some garmin =>
  guarded
    (name <- call (CallGetFullName garmin) (garmin_get_full_name w garmin) ;;
     units <- call (CallGetUnitSystem garmin) (garmin_get_unit_system w garmin) ;;
     ret {| full_name := name; unit_system := units |})
  end.

(** *** Routing *)

Inductive Request : Type :=
| GetHealthz
| PostLogin (body : LoginRequest)
| PostLoginResume (body : ResumeLoginRequest)
| GetSummary (cdate : string)
| GetActivities (start limit : Z) (activitytype : option string)
| GetDownload (activity_id fmt : string)
| GetWhoami.

Inductive Response : Type :=
| HealthzBody (status : string)
| LoginBody (r : LoginResponse)
| SummaryBody (r : SummaryResponse)
| ActivitiesBody (r : ActivitiesResponse)
| DownloadBody (r : DownloadResponse)
| WhoamiBody (r : WhoamiResponse).

(** The handler's return value as the framework sees it; [None] is a
    handler that ran off its end. *)
Definition respond {A} (wrap : A -> Response) (m : M Raised (option A))
    : M Raised (option Response) :=
  r <- m ;; ret (option_map wrap r).

Definition handle (req : Request) : M Raised (option Response) :=
  match req with
  | GetHealthz => respond HealthzBody healthz
  | PostLogin body => respond LoginBody (login body)
  | PostLoginResume body => respond LoginBody (resume_login body)
  | GetSummary cdate => respond SummaryBody (get_user_summary cdate)
  | GetActivities start limit activitytype =>
      respond ActivitiesBody (get_activities start limit activitytype)
  | GetDownload activity_id fmt => respond DownloadBody (download_activity activity_id fmt)
  | GetWhoami => respond WhoamiBody whoami
  end.

End Handlers.

Definition read_only (req : Request) : bool :=
  match req with
  | GetSummary _ | GetActivities _ _ _ | GetDownload _ _ | GetWhoami => true
  | _ => false
  end.

(** The fault table of the specification: the row that applies to a
    library exception, by its class. *)
Definition fault_table (err : Exception) : Raised :=
  match exc_class err with
  | GarminConnectAuthenticationError => HTTPException 401 "Authentication error"
  | GarminConnectTooManyRequestsError => HTTPException 429 "Too many requests"
  | GarminConnectConnectionError => HTTPException 502 "Upstream connection error"
  | FileNotFoundError | OtherException _ => HTTPException 500 (exc_str err)
  end.

Definition ok_response : LoginResponse := {| status := "ok"; client_state := PyNone |}.

(** The five outcomes a failing request may have. *)
Definition mapped (r : Raised) : Prop :=
  match r with
  | HTTPException code detail =>
      (code = 401 /\ detail = "Authentication error")
      \/ (code = 429 /\ detail = "Too many requests")
      \/ (code = 502 /\ detail = "Upstream connection error")
      \/ code = 500
      \/ (code = 401 /\ detail = "Not logged in. Use /login first.")
  | Unhandled _ => False
  end.

(** Loading the stored session fails the way the resolver expects: the
    store is missing, or its tokens are rejected. *)
Definition no_stored_session (w : Upstream) (path : string) (s : Store) : Prop :=
  exists err, garmin_login w Garmin_default (Some path) (s !! path) = Raise err
              /\ (is_FileNotFoundError err || is_GarminConnectAuthenticationError err) = true.

(** [POST /login] sends the credentials upstream: no stored session is
    reused, because the variable is unset or empty, or because the store is
    missing or rejected. *)
Definition login_asks_upstream (w : Upstream) (s : Store) : Prop :=
  truthy (os_getenv w "GARMINTOKENS") = false
  \/ no_stored_session w
       (py_or (os_getenv w "GARMINTOKENS") (expanduser w "~/.garminconnect")) s.

(** The upstream keeps its contract for a pending second factor: the
    sentinel ["needs_mfa"] comes with the challenge state. *)
Definition challenge_contract (w : Upstream) : Prop :=
  forall g tokens,
    garmin_login w g None None = Return tokens ->
    py_eq_str (fst tokens) "needs_mfa" = true ->
    snd tokens <> PyNone.

(** The path of the token store: the expression
    [os.getenv("GARMINTOKENS") or os.path.expanduser("~/.garminconnect")]. *)
Definition tokenstore_path (w : Upstream) : string :=
  py_or (os_getenv w "GARMINTOKENS") (expanduser w "~/.garminconnect").

(** *** What a JSON body can hold

    Requests and responses travel as JSON.  A value is a JSON value when no
    Python object occurs in it; [ResumeLoginRequest] declares
    [client_state: dict], so the body of a resume holds a JSON object. *)
Fixpoint is_json (v : PyVal) : bool :=
  match v with
  | PyNone | PyBool _ | PyInt _ | PyStr _ => true
  | PyList items => forallb is_json items
  | PyDict entries => forallb (fun entry => let '(_, x) := entry in is_json x) entries
  | PyObj _ => false
  end.

Definition is_dict (v : PyVal) : bool :=
  match v with PyDict _ => true | _ => false end.

(** The bodies [POST /login/resume] can be handed. *)
Definition json_body (body : ResumeLoginRequest) : bool :=
  is_dict (resume_client_state body) && is_json (resume_client_state body).

(** ** Scenarios

    Concrete collaborators on which the handlers are run. *)

Module Scenario.

(** [expanduser] for a user whose home directory is [/home/garmin]. *)
Definition home (path : string) : string :=
  if String.prefix "~/" path
  then "/home/garmin" +:+ String.substring 1 (String.length path - 1) path
  else path.

Definition oauth_tokens : Tokens := (PyObj "OAuth1Token", PyObj "OAuth2Token").

Definition challenge : PyVal :=
  PyDict [("signin_params", PyDict [("id", PyStr "gauth-widget")]);
          ("client", PyObj "garth.Client")].

Definition gpx : list byte := String.list_byte_of_string "<gpx></gpx>".

(** A collaborator given by the environment variable, the answers to
    [login] and [resume_login], and the fate of [dump]; data calls answer
    with fixed payloads. *)
Definition world (env : option string)
    (login_answer : option string -> option Tokens -> Outcome Exception Tokens)
    (resume_answer : PyVal -> string -> Outcome Exception Tokens)
    (dump_answer : option Exception) : Upstream :=
  {| os_getenv := fun name => if bool_decide (name = "GARMINTOKENS") then env else None;
     expanduser := home;
     garmin_login := fun _ => login_answer;
     garmin_resume_login := fun _ => resume_answer;
     garth_dump := fun _ _ => dump_answer;
     garmin_get_user_summary := fun _ _ => Return (PyDict [("totalSteps", PyInt 9000)]);
     garmin_get_activities := fun _ _ _ _ => Return (PyList []);
     garmin_download_activity := fun _ _ _ => Return gpx;
     garmin_get_full_name := fun _ => Return (PyStr "A. Runner");
     garmin_get_unit_system := fun _ => Return (PyStr "metric");
     enum_getattr_other := fun name => Some (Exc (OtherException "AttributeError") name) |}.

Definition wrong_code : Exception :=
  Exc GarminConnectAuthenticationError "MFA verification failed".

Definition accept_code (cs : PyVal) (code : string) : Outcome Exception Tokens :=
  if bool_decide (code = "123456") then Return oauth_tokens else Raise wrong_code.

(** A login pointed to a path loads what the store holds there, and fails
    with [FileNotFoundError] when it holds nothing; a login with credentials
    answers [fresh]. *)
Definition load_or (fresh : Outcome Exception Tokens)
    (tokenstore : option string) (stored : option Tokens) : Outcome Exception Tokens :=
  match tokenstore, stored with
  | Some _, Some _ => Return (PyNone, PyNone)
  | Some path, None =>
      Raise (Exc FileNotFoundError ("[Errno 2] No such file or directory: " +:+ path))
  | None, _ => fresh
  end.

(** Credentials are accepted without a second factor. *)
Definition account : Upstream :=
  world None (load_or (Return oauth_tokens)) accept_code None.

(** A token store left by an earlier login of [account]. *)
Definition logged_in : Store := {[ "/home/garmin/.garminconnect" := oauth_tokens ]}.

(** As [account], with the token store at a path that cannot be written. *)
Definition read_only_disk : Upstream :=
  world (Some "/srv/tokens") (load_or (Return oauth_tokens)) accept_code
    (Some (Exc (OtherException "PermissionError") "[Errno 13] Permission denied")).

(** The account requires a second factor. *)
Definition mfa_account : Upstream :=
  world None (load_or (Return (PyStr "needs_mfa", challenge))) accept_code None.

(** The upstream cannot be reached while the stored session is being
    loaded. *)
Definition unreachable : Exception :=
  Exc GarminConnectConnectionError "Connection error while loading the stored session".

Definition upstream_down : Upstream :=
  world None (fun _ _ => Raise unreachable) accept_code None.

(** [GARMINTOKENS] is set, to the empty string. *)
Definition empty_variable : Upstream :=
  world (Some "") (load_or (Return oauth_tokens)) accept_code None.

Definition credentials : LoginRequest :=
  {| email := Some "runner@example.org"; password := Some "secret";
     is_cn := false; return_on_mfa := true |}.

(** The store an earlier login left when the variable pointed to
    [/srv/tokens]. *)
Definition served : Store := {[ "/srv/tokens" := oauth_tokens ]}.

(** The upstream limits the rate while the stored session is loaded. *)
Definition rate_limit : Exception :=
  Exc GarminConnectTooManyRequestsError "Too many requests".

Definition throttled : Upstream :=
  world (Some "/srv/tokens")
    (fun tokenstore _ =>
       match tokenstore with
       | Some _ => Raise rate_limit
       | None => Return oauth_tokens
       end)
    accept_code None.

(** The credentials are rejected. *)
Definition bad_password : Exception :=
  Exc GarminConnectAuthenticationError "401 Client Error: Unauthorized".

Definition rejected : Upstream :=
  world None (load_or (Raise bad_password)) accept_code None.

(** The profile has no full name; everything else is as in [account]. *)
Definition no_full_name : Exception := Exc (OtherException "KeyError") "'fullName'".

Definition nameless : Upstream :=
  {| os_getenv := os_getenv account;
     expanduser := expanduser account;
     garmin_login := garmin_login account;
     garmin_resume_login := garmin_resume_login account;
     garth_dump := garth_dump account;
     garmin_get_user_summary := garmin_get_user_summary account;
     garmin_get_activities := garmin_get_activities account;
     garmin_download_activity := garmin_download_activity account;
     garmin_get_full_name := fun _ => Raise no_full_name;
     garmin_get_unit_system := garmin_get_unit_system account;
     enum_getattr_other := enum_getattr_other account |}.

(** The upstream reports a pending second factor but hands over no
    challenge state. *)
Definition mfa_without_state : Upstream :=
  world None (load_or (Return (PyStr "needs_mfa", PyNone))) accept_code None.

(** The files of the token store are there but are not the JSON the client
    wrote. *)
Definition corrupt : Store :=
  {[ "/home/garmin/.garminconnect" := (PyStr "{", PyStr "") ]}.

Definition not_json : Exception :=
  Exc (OtherException "JSONDecodeError") "Expecting property name enclosed in double quotes".

(** A login pointed to a path parses what it finds there. *)
Definition parsing_load (tokenstore : option string) (stored : option Tokens)
    : Outcome Exception Tokens :=
  match tokenstore, stored with
  | Some _, Some (PyObj _, PyObj _) => Return (PyNone, PyNone)
  | Some _, Some _ => Raise not_json
  | Some path, None =>
      Raise (Exc FileNotFoundError ("[Errno 2] No such file or directory: " +:+ path))
  | None, _ => Return oauth_tokens
  end.

Definition parsing_account : Upstream :=
  world None parsing_load accept_code None.

End Scenario.

(** * Properties *)

(** ** Base64: decoding inverts encoding *)

Module Base64Facts.
Import Base64.

Local Open Scope N_scope.

Ltac div_lia := zify; Z.to_euclidean_division_equations; lia.

(** Every value below 64 satisfies a property that holds of 0 .. 63. *)
Lemma sextet_cases (P : N -> Prop) :
  (forall k : nat, (k < 64)%nat -> P (N.of_nat k)) ->
  forall d, d < 64 -> P d.
Proof.
  intros HP d Hd.
  replace d with (N.of_nat (N.to_nat d)) by apply N2Nat.id.
  apply HP. lia.
Qed.

Lemma index_of_char_of d : d < 64 -> index_of (char_of d) = Some d.
Proof.
  revert d. apply sextet_cases. intros k Hk.
  do 64 (destruct k as [|k]; [reflexivity|]).
  lia.
Qed.

Lemma char_of_not_pad d : d < 64 -> Byte.eqb (char_of d) pad = false.
Proof.
  revert d. apply sextet_cases. intros k Hk.
  do 64 (destruct k as [|k]; [reflexivity|]).
  lia.
Qed.

Lemma to_N_lt_256 (b : byte) : Byte.to_N b < 256.
Proof. pose proof (Byte.to_N_bounded b). lia. Qed.

Lemma of_N_eq (n : N) (b : byte) : n = Byte.to_N b -> Byte.of_N n = Some b.
Proof. intros ->. apply Byte.of_to_N. Qed.

Lemma decode4_encode3 a b c :
  match encode3 a b c with
  | [c1; c2; c3; c4] => Byte.eqb c4 pad = false /\ decode4 c1 c2 c3 c4 = Some [a; b; c]
  | _ => False
  end.
Proof.
  pose proof (to_N_lt_256 a) as Ha. pose proof (to_N_lt_256 b) as Hb.
  pose proof (to_N_lt_256 c) as Hc.
  unfold encode3, decode4.
  set (n := Byte.to_N a * 65536 + Byte.to_N b * 256 + Byte.to_N c).
  assert (Hn : n < 16777216) by (subst n; lia).
  split.
  - apply char_of_not_pad. div_lia.
  - rewrite !index_of_char_of by div_lia. cbn [mbind option_bind].
    replace (n / 262144 * 262144 + n / 4096 mod 64 * 4096 + n / 64 mod 64 * 64 + n mod 64)
      with n by div_lia.
    rewrite (of_N_eq (n / 65536) a) by (subst n; div_lia).
    rewrite (of_N_eq (n / 256 mod 256) b) by (subst n; div_lia).
    rewrite (of_N_eq (n mod 256) c) by (subst n; div_lia).
    reflexivity.
Qed.

Lemma decode3_encode2 a b :
  match encode2 a b with
  | [c1; c2; c3; c4] =>
      Byte.eqb c4 pad = true /\ Byte.eqb c3 pad = false /\ decode3 c1 c2 c3 = Some [a; b]
  | _ => False
  end.
Proof.
  pose proof (to_N_lt_256 a) as Ha. pose proof (to_N_lt_256 b) as Hb.
  unfold encode2, decode3.
  set (n := (Byte.to_N a * 256 + Byte.to_N b) * 4).
  assert (Hn : n < 262144) by (subst n; lia).
  split; [reflexivity|]. split.
  - apply char_of_not_pad. div_lia.
  - rewrite !index_of_char_of by div_lia. cbn [mbind option_bind].
    replace (n / 4096 * 4096 + n / 64 mod 64 * 64 + n mod 64) with n by div_lia.
    rewrite (of_N_eq (n / 1024) a) by (subst n; div_lia).
    rewrite (of_N_eq (n / 4 mod 256) b) by (subst n; div_lia).
    reflexivity.
Qed.

Lemma decode2_encode1 a :
  match encode1 a with
  | [c1; c2; c3; c4] =>
      Byte.eqb c4 pad = true /\ Byte.eqb c3 pad = true /\ decode2 c1 c2 = Some [a]
  | _ => False
  end.
Proof.
  pose proof (to_N_lt_256 a) as Ha.
  unfold encode1, decode2.
  set (n := Byte.to_N a * 16).
  assert (Hn : n < 4096) by (subst n; lia).
  split; [reflexivity|]. split; [reflexivity|].
  rewrite !index_of_char_of by div_lia. cbn [mbind option_bind].
  replace (n / 64 * 64 + n mod 64) with n by div_lia.
  rewrite (of_N_eq (n / 16) a) by (subst n; div_lia).
  reflexivity.
Qed.

(** Induction over a byte string three bytes at a time, as the encoder
    consumes it. *)
Lemma list_ind3 {A} (P : list A -> Prop) :
  P [] -> (forall a, P [a]) -> (forall a b, P [a; b]) ->
  (forall a b c rest, P rest -> P (a :: b :: c :: rest)) ->
  forall l, P l.
Proof.
  intros H0 H1 H2 H3.
  fix IH 1.
  intros [|a [|b [|c rest]]]; [exact H0 | apply H1 | apply H2 | apply H3, IH].
Qed.

Theorem b64decode_b64encode (s : list byte) : b64decode (b64encode s) = Some s.
Proof.
  induction s as [|a|a b|a b c rest IH] using list_ind3.
  - reflexivity.
  - change (b64encode [a]) with (encode1 a).
    pose proof (decode2_encode1 a) as H. unfold encode1 in *.
    destruct H as (H4 & H3 & H). cbn [b64decode]. rewrite ?H4, ?H3. exact H.
  - change (b64encode [a; b]) with (encode2 a b).
    pose proof (decode3_encode2 a b) as H. unfold encode2 in *.
    destruct H as (H4 & H3 & H). cbn [b64decode]. rewrite ?H4, ?H3. exact H.
  - change (b64encode (a :: b :: c :: rest)) with (encode3 a b c ++ b64encode rest).
    pose proof (decode4_encode3 a b c) as H. unfold encode3 in *.
    destruct H as (H4 & H). cbn [app b64decode]. rewrite H4, H, IH. reflexivity.
Qed.

(** Any function that inverts the encoder agrees with [b64decode] on
    encoder output: the encoder loses no information. *)
Corollary b64encode_inj (s t : list byte) : b64encode s = b64encode t -> s = t.
Proof.
  intros H. apply (f_equal b64decode) in H.
  rewrite !b64decode_b64encode in H. congruence.
Qed.

Lemma char_of_ascii d : (Byte.to_N (char_of d) <? 128) = true.
Proof.
  unfold char_of.
  destruct (nth_in_or_default (N.to_nat d) alphabet pad) as [Hin | ->]; [|reflexivity].
  assert (Hall : forallb (fun b => Byte.to_N b <? 128) alphabet = true) by reflexivity.
  rewrite forallb_forall in Hall. apply Hall, Hin.
Qed.

Lemma b64encode_ascii (s : list byte) :
  forallb (fun b => Byte.to_N b <? 128) (b64encode s) = true.
Proof.
  induction s as [|a|a b|a b c rest IH] using list_ind3.
  - reflexivity.
  - cbn [b64encode encode1 forallb]. rewrite !char_of_ascii. reflexivity.
  - cbn [b64encode encode2 forallb]. rewrite !char_of_ascii. reflexivity.
  - change (b64encode (a :: b :: c :: rest)) with (encode3 a b c ++ b64encode rest).
    rewrite forallb_app, IH. cbn [encode3 forallb]. rewrite !char_of_ascii. reflexivity.
Qed.

(** [base64.b64encode(raw).decode("ascii")] never raises, and the text
    decodes back to [raw]. *)
Lemma decode_ascii_b64encode (raw : list byte) :
  decode_ascii (b64encode raw) = Return (String.string_of_list_byte (b64encode raw)).
Proof. unfold decode_ascii. rewrite b64encode_ascii. reflexivity. Qed.

Lemma b64decode_str_b64encode (raw : list byte) :
  b64decode_str (String.string_of_list_byte (b64encode raw)) = Some raw.
Proof.
  unfold b64decode_str.
  rewrite String.list_byte_of_string_of_list_byte. apply b64decode_b64encode.
Qed.

(** The test vectors of RFC 4648, section 10, and a byte string that uses
    the last two characters of the alphabet. *)
Example b64encode_rfc4648 :
  map (fun t => String.string_of_list_byte (b64encode (String.list_byte_of_string t)))
    [""; "f"; "fo"; "foo"; "foob"; "fooba"; "foobar"]%string
  = [""; "Zg=="; "Zm8="; "Zm9v"; "Zm9vYg=="; "Zm9vYmE="; "Zm9vYmFy"]%string.
Proof. reflexivity. Qed.

Example b64encode_high_bytes :
  String.string_of_list_byte (b64encode [xfb; xff; xfe; xff]) = "+//+/w=="%string.
Proof. reflexivity. Qed.

(** The encoding has four characters for every three bytes, the last group
    padded. *)
Lemma b64encode_length (s : list byte) :
  length (b64encode s) = (4 * ((length s + 2) / 3))%nat.
Proof.
  induction s as [|a|a b|a b c rest IH] using list_ind3; try reflexivity.
  change (b64encode (a :: b :: c :: rest)) with (encode3 a b c ++ b64encode rest).
  rewrite length_app, IH. cbn [encode3 length].
  replace (S (S (S (length rest))) + 2)%nat with (length rest + 2 + 1 * 3)%nat by lia.
  rewrite Nat.div_add by discriminate. lia.
Qed.

Lemma string_of_list_byte_length (l : list byte) :
  String.length (String.string_of_list_byte l) = length l.
Proof.
  unfold String.string_of_list_byte.
  induction l as [|b l IH]; [reflexivity|]. cbn. rewrite IH. reflexivity.
Qed.

End Base64Facts.

(** ** How the handlers run *)

(** Unfolds the monad, leaving matches on the collaborators' answers. *)
Ltac run :=
  cbv [guarded uncaught try_except bind ret raise call pure_step dump_call
       login_call stored_at any_Exception respond];
  cbn [outcome store_after calls app option_map].

(** Unfolds a handler down to the collaborators' answers. *)
Ltac unfold_handlers :=
  cbv [handle healthz login resume_login get_user_summary get_activities
       download_activity whoami _instantiate_api_from_tokenstore];
  run.

Section Runs.

Variable w : Upstream.

Lemma raise_from_err_run (err : Exception) (s : Store) :
  _raise_from_err err s = MkRun (Raise (fault_table err)) s [].
Proof.
  unfold _raise_from_err, fault_table, is_GarminConnectAuthenticationError,
    is_GarminConnectTooManyRequestsError, is_GarminConnectConnectionError.
  destruct (exc_class err); reflexivity.
Qed.

(** The guarded tail of a handler either returns what its body returned or
    raises the translation of what its body raised; the store and the calls
    are the body's. *)
Lemma guarded_run {A} (body : M Exception A) (s : Store) :
  guarded body s =
    MkRun (match outcome (body s) with
           | Return a => Return (Some a)
           | Raise err => Raise (fault_table err)
           end) (store_after (body s)) (calls (body s)).
Proof.
  run. destruct (body s) as [[a|err] s1 calls1]; run.
  - rewrite app_nil_r. reflexivity.
  - rewrite raise_from_err_run, app_nil_r. reflexivity.
Qed.

Lemma instantiate_run (tokenstore : string) (s : Store) :
  _instantiate_api_from_tokenstore w tokenstore s =
    MkRun (match garmin_login w Garmin_default (Some tokenstore) (s !! tokenstore) with
           | Return _ => Return (Some Garmin_default)
           | Raise err =>
               if is_FileNotFoundError err || is_GarminConnectAuthenticationError err
               then Return None else Raise err
           end) s [CallLogin Garmin_default (Some tokenstore)].
Proof.
  unfold _instantiate_api_from_tokenstore. run.
  destruct (garmin_login w Garmin_default (Some tokenstore) (s !! tokenstore)) as [t|err];
    run; [reflexivity|].
  destruct (is_FileNotFoundError err || is_GarminConnectAuthenticationError err); reflexivity.
Qed.

(** A dump whose failure is swallowed. *)
Lemma best_effort_dump_run (g : Garmin) (tokens : Tokens) (path : string) (s : Store) :
  try_except (dump_call w g tokens path) any_Exception (fun err => err) (fun _ => ret tt) s =
    MkRun (Return tt)
      (match garth_dump w g path with None => <[path := tokens]> s | Some _ => s end)
      [CallDump g path].
Proof. run. destruct (garth_dump w g path); reflexivity. Qed.

(** When the variable is truthy, its value is the resolved path. *)
Lemma truthy_tokenstore_path :
  truthy (os_getenv w "GARMINTOKENS") = true ->
  default "" (os_getenv w "GARMINTOKENS") = tokenstore_path w.
Proof.
  unfold truthy, tokenstore_path, py_or.
  destruct (os_getenv w "GARMINTOKENS") as [v|]; [|discriminate].
  cbn. destruct (bool_decide (v = "")); [discriminate | reflexivity].
Qed.

End Runs.

(** Case analysis on the answers the goal inspects, innermost first. *)
Ltac split_answers :=
  cbv beta iota; cbn [outcome store_after calls app option_map];
  repeat (first
    [ rewrite raise_from_err_run
    | match goal with
      | |- context [match ?x with _ => _ end] =>
          lazymatch x with
          | context [match _ with _ => _ end] => fail
          | _ => destruct x eqn:?
          end
      end ];
    cbv beta iota; cbn [outcome store_after calls app option_map]).

(** ** A session, end to end *)

(** A fresh login leaves the tokens in the store; with that store the daily
    summary is served, and with the store deleted it is refused. *)
Example login_then_summary :
  let after_login := store_after (login Scenario.account Scenario.credentials ∅) in
  outcome (login Scenario.account Scenario.credentials ∅) = Return (Some ok_response)
  /\ after_login = Scenario.logged_in
  /\ outcome (get_user_summary Scenario.account "2024-01-01" after_login)
     = Return (Some {| summary_data := PyDict [("totalSteps", PyInt 9000)] |})
  /\ outcome (get_user_summary Scenario.account "2024-01-01" ∅)
     = Raise (HTTPException 401 "Not logged in. Use /login first.").
Proof. repeat split; reflexivity. Qed.

(** A wrong one-time code is answered 401. *)
Example resume_wrong_code :
  outcome (resume_login Scenario.mfa_account
             {| resume_client_state := Scenario.challenge; mfa_code := "000000" |} ∅)
  = Raise (HTTPException 401 "Authentication error").
Proof. reflexivity. Qed.

(** A format outside the enumeration is answered 500 by the catch-all. *)
Example download_unknown_format :
  outcome (download_activity Scenario.account "42" "FIT" Scenario.logged_in)
  = Raise (HTTPException 500 "FIT").
Proof. reflexivity. Qed.

(** ** The fault translator *)

(** C4.  Whatever exception the fault translator is handed, it raises the
    row of the fault table for the exception's class: 401 "Authentication
    error" for an authentication error, 429 "Too many requests" for a
    rate-limit error (never 500), 502 "Upstream connection error" for a
    connection error, and 500 with [str(err)] for anything else.  The row
    depends on the exception alone: every guarded operation that raises it
    ends with the same response. *)
Theorem fault_translator_mapping (err : Exception) :
  (forall s : Store, _raise_from_err err s = MkRun (Raise (fault_table err)) s [])
  /\ (forall (A : Type) (operation : M Exception A) (s : Store),
        outcome (operation s) = Raise err ->
        outcome (guarded operation s) = Raise (fault_table err))
  /\ (exc_class err = GarminConnectTooManyRequestsError ->
      forall (s : Store) (detail : string),
        outcome (_raise_from_err err s) = Raise (HTTPException 429 "Too many requests")
        /\ outcome (_raise_from_err err s) <> Raise (HTTPException 500 detail)).
Proof.
  split; [|split].
  - intros s. apply raise_from_err_run.
  - intros A operation s H.
    rewrite guarded_run, H. reflexivity.
  - intros Hcls s detail. rewrite raise_from_err_run. unfold fault_table.
    rewrite Hcls. cbn. split; [reflexivity | discriminate].
Qed.

(** An upstream rate limit met while listing activities is answered 429,
    not 500. *)
Lemma fault_translator_mapping_witness :
  outcome (guarded (call (CallGetActivities Garmin_default 0 20 None)
                      (Raise (Exc GarminConnectTooManyRequestsError "Too many requests"))
                    : M Exception PyVal) ∅)
  = Raise (HTTPException 429 "Too many requests")
  /\ outcome (_raise_from_err (Exc GarminConnectTooManyRequestsError "Too many requests") ∅)
     <> Raise (HTTPException 500 "Too many requests").
Proof.
  destruct (fault_translator_mapping
              (Exc GarminConnectTooManyRequestsError "Too many requests"))
    as (_ & Hoperation & Hrate).
  split.
  - apply (Hoperation PyVal). reflexivity.
  - exact (proj2 (Hrate eq_refl ∅ "Too many requests")).
Defined.

(** C10.  The fault translator never returns: for every exception it
    raises an [HTTPException] whose status is 401, 429, 502 or 500, and so a
    guarded handler body that raises ends the request with one of these
    statuses instead of running off the handler's end. *)
Theorem raise_from_err_never_returns (err : Exception) :
  (forall s : Store,
     exists code detail,
       _raise_from_err err s = MkRun (Raise (HTTPException code detail)) s []
       /\ In code [401; 429; 502; 500])
  /\ (forall (A : Type) (body : M Exception A) (s : Store),
        outcome (body s) = Raise err ->
        exists code detail,
          outcome (guarded body s) = Raise (HTTPException code detail)
          /\ In code [401; 429; 502; 500]).
Proof.
  assert (Hrow : exists code detail,
             fault_table err = HTTPException code detail
             /\ In code [401; 429; 502; 500]).
  { unfold fault_table. destruct (exc_class err); eexists _, _; (split; [reflexivity|]);
      cbn; tauto. }
  destruct Hrow as (code & detail & Hrow & Hin).
  split.
  - intros s. exists code, detail. rewrite raise_from_err_run, Hrow. auto.
  - intros A body s H. exists code, detail.
    rewrite guarded_run, H, Hrow. auto.
Qed.

Lemma raise_from_err_never_returns_witness :
  exists code detail,
    outcome (guarded (call (CallGetFullName Garmin_default)
                        (Raise (Exc (OtherException "KeyError") "'fullName'"))
                      : M Exception PyVal) ∅)
    = Raise (HTTPException code detail)
    /\ In code [401; 429; 502; 500].
Proof.
  apply (proj2 (raise_from_err_never_returns (Exc (OtherException "KeyError") "'fullName'"))
           PyVal _ ∅).
  reflexivity.
Defined.

(** ** Totality of the fault mapping *)

Lemma fault_table_mapped (err : Exception) : mapped (fault_table err).
Proof. unfold fault_table. destruct (exc_class err); cbn; tauto. Qed.

(** Every way a request can end.  A handler returns a response, or raises
    one of the five mapped responses, or lets through the exception that
    loading the stored session raised, when that exception is neither
    [FileNotFoundError] nor [GarminConnectAuthenticationError]. *)
Lemma request_outcomes (w : Upstream) (req : Request) (s : Store) :
  match outcome (handle w req s) with
  | Return resp => resp <> None
  | Raise (HTTPException code detail) => mapped (HTTPException code detail)
  | Raise (Unhandled err) =>
      garmin_login w Garmin_default (Some (tokenstore_path w)) (s !! tokenstore_path w) = Raise err
      /\ (is_FileNotFoundError err || is_GarminConnectAuthenticationError err) = false
      /\ (read_only req = true
          \/ exists body, req = PostLogin body /\ truthy (os_getenv w "GARMINTOKENS") = true)
  end.
Proof.
  destruct req; unfold_handlers.
  all: fold (tokenstore_path w); split_answers; try discriminate.
  all: try match goal with
         | H : fault_table ?e = _ |- _ =>
             let Hm := fresh in
             pose proof (fault_table_mapped e) as Hm; rewrite H in Hm;
             first [exact Hm | destruct Hm]
         end.
  all: try (cbn; tauto).
  all: rewrite truthy_tokenstore_path in * by assumption.
  all: cbn; eauto 10.
Qed.

(** Loading the stored session is not guarded: an exception it raises that
    the resolver does not catch leaves a read-only handler as it is. *)
Lemma load_failure_escapes (w : Upstream) (req : Request) (s : Store) (err : Exception) :
  read_only req = true ->
  garmin_login w Garmin_default (Some (tokenstore_path w)) (s !! tokenstore_path w) = Raise err ->
  (is_FileNotFoundError err || is_GarminConnectAuthenticationError err) = false ->
  handle w req s
  = MkRun (Raise (Unhandled err)) s [CallLogin Garmin_default (Some (tokenstore_path w))].
Proof.
  intros Hro Hload Hclass.
  destruct req; try discriminate Hro; unfold_handlers.
  all: fold (tokenstore_path w); rewrite Hload; cbv beta iota; rewrite Hclass.
  all: reflexivity.
Qed.

(** C1.  The token store is on disk, but the upstream cannot be reached
    while the stored session is loaded: [Garmin().login(tokenstore)] raises
    [GarminConnectConnectionError].  The fault table answers this exception
    with 502, yet [GET /summary] (and likewise [/activities], [/download]
    and [/whoami]) lets it through untranslated: the request ends with none
    of the five mapped responses. *)
Theorem summary_connection_error_escapes :
  garmin_login Scenario.upstream_down Garmin_default
    (Some (tokenstore_path Scenario.upstream_down))
    (Scenario.logged_in !! tokenstore_path Scenario.upstream_down)
  = Raise Scenario.unreachable
  /\ fault_table Scenario.unreachable = HTTPException 502 "Upstream connection error"
  /\ outcome (get_user_summary Scenario.upstream_down "2024-01-01" Scenario.logged_in)
       = Raise (Unhandled Scenario.unreachable)
  /\ outcome (get_activities Scenario.upstream_down 0 20 None Scenario.logged_in)
       = Raise (Unhandled Scenario.unreachable)
  /\ outcome (download_activity Scenario.upstream_down "42" "TCX" Scenario.logged_in)
       = Raise (Unhandled Scenario.unreachable)
  /\ outcome (whoami Scenario.upstream_down Scenario.logged_in)
       = Raise (Unhandled Scenario.unreachable)
  /\ ~ mapped (Unhandled Scenario.unreachable).
Proof.
  repeat split; try reflexivity. intros [].
Qed.

(** ** Read-only endpoints *)

(** The login calls of a read-only request: one load of the stored session,
    and nothing after it unless the session loaded. *)
Lemma read_only_calls (w : Upstream) (req : Request) (s : Store) :
  read_only req = true ->
  exists rest,
    calls (handle w req s) = CallLogin Garmin_default (Some (tokenstore_path w)) :: rest
    /\ (forall g ts, ~ In (CallLogin g ts) rest)
    /\ (forall g cs code, ~ In (CallResumeLogin g cs code) rest)
    /\ (forall g p, ~ In (CallDump g p) rest)
    /\ store_after (handle w req s) = s.
Proof.
  intros Hro.
  destruct req; try discriminate Hro; unfold_handlers.
  all: fold (tokenstore_path w); split_answers.
  all: eexists; (split; [reflexivity|]).
  all: repeat split; try reflexivity; cbn; intros; intuition discriminate.
Qed.

(** X14.  A read-only endpoint ([GET /summary], [/activities],
    [/activities/{id}/download], [/whoami]) attempts token-store reuse only:
    its single login call loads the stored session, and it never logs in
    with credentials nor resumes a login.  When the load raises
    [FileNotFoundError] or [GarminConnectAuthenticationError] it answers 401
    "Not logged in. Use /login first." having made no other call. *)
Theorem read_only_reuse_only (w : Upstream) (req : Request) (s : Store) :
  read_only req = true ->
  (forall g ts, In (CallLogin g ts) (calls (handle w req s)) ->
     g = Garmin_default /\ ts = Some (tokenstore_path w))
  /\ (forall g cs code, ~ In (CallResumeLogin g cs code) (calls (handle w req s)))
  /\ (no_stored_session w (tokenstore_path w) s ->
      handle w req s
      = MkRun (Raise (HTTPException 401 "Not logged in. Use /login first.")) s
          [CallLogin Garmin_default (Some (tokenstore_path w))]).
Proof.
  intros Hro.
  destruct (read_only_calls w req s Hro) as (rest & Hcalls & Hlogin & Hresume & _ & _).
  split; [|split].
  - intros g ts Hin. rewrite Hcalls in Hin. destruct Hin as [Heq | Hin].
    + inversion Heq. auto.
    + destruct (Hlogin g ts Hin).
  - intros g cs code Hin. rewrite Hcalls in Hin. destruct Hin as [Heq | Hin].
    + discriminate Heq.
    + destruct (Hresume g cs code Hin).
  - intros (err & Hload & Hclass).
    destruct req; try discriminate Hro; unfold_handlers.
    all: fold (tokenstore_path w); rewrite Hload; cbv beta iota; rewrite Hclass.
    all: reflexivity.
Qed.

(** With no token store on disk, [GET /summary] answers 401 and its only
    call is the attempt to load the store. *)
Lemma read_only_reuse_only_witness :
  handle Scenario.account (GetSummary "2024-01-01") ∅
  = MkRun (Raise (HTTPException 401 "Not logged in. Use /login first.")) ∅
      [CallLogin Garmin_default (Some "/home/garmin/.garminconnect")].
Proof.
  apply (proj2 (proj2 (read_only_reuse_only Scenario.account
                         (GetSummary "2024-01-01") ∅ eq_refl))).
  eexists. split; reflexivity.
Defined.

(** C2.  The token store is on disk but corrupt, so no valid stored session
    exists; loading it raises an exception of a class the resolver does not
    catch.  No read-only handler answers 401 "Not logged in. Use /login
    first.": the exception leaves each of them untranslated.  None of them
    logs in with credentials either: the load is the only call. *)
Theorem corrupt_store_escapes :
  garmin_login Scenario.parsing_account Garmin_default
    (Some (tokenstore_path Scenario.parsing_account))
    (Scenario.corrupt !! tokenstore_path Scenario.parsing_account)
  = Raise Scenario.not_json
  /\ (is_FileNotFoundError Scenario.not_json
      || is_GarminConnectAuthenticationError Scenario.not_json) = false
  /\ get_user_summary Scenario.parsing_account "2024-01-01" Scenario.corrupt
     = MkRun (Raise (Unhandled Scenario.not_json)) Scenario.corrupt
         [CallLogin Garmin_default (Some "/home/garmin/.garminconnect")]
  /\ get_activities Scenario.parsing_account 0 20 None Scenario.corrupt
     = MkRun (Raise (Unhandled Scenario.not_json)) Scenario.corrupt
         [CallLogin Garmin_default (Some "/home/garmin/.garminconnect")]
  /\ download_activity Scenario.parsing_account "42" "TCX" Scenario.corrupt
     = MkRun (Raise (Unhandled Scenario.not_json)) Scenario.corrupt
         [CallLogin Garmin_default (Some "/home/garmin/.garminconnect")]
  /\ whoami Scenario.parsing_account Scenario.corrupt
     = MkRun (Raise (Unhandled Scenario.not_json)) Scenario.corrupt
         [CallLogin Garmin_default (Some "/home/garmin/.garminconnect")]
  /\ Unhandled Scenario.not_json <> HTTPException 401 "Not logged in. Use /login first.".
Proof.
  repeat split; try reflexivity. discriminate.
Qed.

(** ** The token-store path *)

(** Closes the goals a case analysis leaves about membership in a short,
    explicit list of calls. *)
Ltac list_facts :=
  cbn [In] in *; intros;
  repeat match goal with
    | H : _ \/ _ |- _ => destruct H
    | H : False |- _ => destruct H
    | H : _ = _ |- _ => first [discriminate H | injection H as ?; subst]
    end;
  try discriminate; try reflexivity; try tauto; try congruence; eauto 10.

(** No dump among a short, explicit list of calls. *)
Ltac no_dump := cbn [In]; intros; intuition discriminate.

(** C3 (as stated, refuted).  [GARMINTOKENS] is set, to the empty string:
    the token-store path is not the variable's value but the per-user
    default, and that default is what a request reads.  [POST /login],
    moreover, does not attempt to reuse the session stored at that path: it
    goes straight to the credentials. *)
Lemma empty_variable_resolves_to_default :
  os_getenv Scenario.empty_variable "GARMINTOKENS" = Some ""
  /\ tokenstore_path Scenario.empty_variable = "/home/garmin/.garminconnect"
  /\ calls (handle Scenario.empty_variable GetWhoami Scenario.logged_in)
     = [CallLogin Garmin_default (Some "/home/garmin/.garminconnect");
        CallGetFullName Garmin_default; CallGetUnitSystem Garmin_default]
  /\ calls (handle Scenario.empty_variable (PostLogin Scenario.credentials) Scenario.logged_in)
     = [CallLogin (Garmin_of_body Scenario.credentials) None;
        CallDump (Garmin_of_body Scenario.credentials) "/home/garmin/.garminconnect"]
  /\ ~ (forall (w : Upstream) (v : string),
          os_getenv w "GARMINTOKENS" = Some v -> tokenstore_path w = v).
Proof.
  repeat split; try reflexivity.
  intros H. specialize (H Scenario.empty_variable "" eq_refl). discriminate H.
Qed.

(** C3 (amended).  The token-store path is the value of [GARMINTOKENS] when
    the variable is set to a non-empty string, and the per-user default
    [~/.garminconnect] when it is unset or empty.  Every load of a stored
    session reads this path: each read-only request performs one, and
    [POST /login] performs one exactly when the variable is set and
    non-empty.  Every dump writes to this path, and a dump is attempted on
    every fresh login that ends "ok" and on every resume that ends "ok"; when
    the dump does not raise, the session's tokens are then in the store at
    this path. *)
Theorem tokenstore_path_read_and_written (w : Upstream) :
  (forall v, os_getenv w "GARMINTOKENS" = Some v -> v <> "" -> tokenstore_path w = v)
  /\ (os_getenv w "GARMINTOKENS" = None \/ os_getenv w "GARMINTOKENS" = Some "" ->
      tokenstore_path w = expanduser w "~/.garminconnect")
  /\ forall (req : Request) (s : Store),
       (forall g p, In (CallLogin g (Some p)) (calls (handle w req s)) ->
          p = tokenstore_path w)
       /\ (forall g p, In (CallDump g p) (calls (handle w req s)) ->
             p = tokenstore_path w)
       /\ (read_only req = true ->
           In (CallLogin Garmin_default (Some (tokenstore_path w))) (calls (handle w req s)))
       /\ (forall body, req = PostLogin body ->
             (truthy (os_getenv w "GARMINTOKENS") = true <->
              In (CallLogin Garmin_default (Some (tokenstore_path w)))
                (calls (handle w req s))))
       /\ (forall body, req = PostLogin body ->
             In (CallLogin (Garmin_of_body body) None) (calls (handle w req s)) ->
             outcome (handle w req s) = Return (Some (LoginBody ok_response)) ->
             In (CallDump (Garmin_of_body body) (tokenstore_path w)) (calls (handle w req s))
             /\ (garth_dump w (Garmin_of_body body) (tokenstore_path w) = None ->
                 exists tokens,
                   garmin_login w (Garmin_of_body body) None None = Return tokens
                   /\ store_after (handle w req s) !! tokenstore_path w = Some tokens))
       /\ (forall body, req = PostLoginResume body ->
             outcome (handle w req s) = Return (Some (LoginBody ok_response)) ->
             In (CallDump Garmin_resume (tokenstore_path w)) (calls (handle w req s))
             /\ (garth_dump w Garmin_resume (tokenstore_path w) = None ->
                 exists tokens,
                   garmin_resume_login w Garmin_resume
                     (resume_client_state body) (mfa_code body) = Return tokens
                   /\ store_after (handle w req s) !! tokenstore_path w = Some tokens)).
Proof.
  split; [|split].
  - intros v Hv Hne. unfold tokenstore_path, py_or. rewrite Hv.
    rewrite bool_decide_eq_false_2 by exact Hne. reflexivity.
  - intros [H | H]; unfold tokenstore_path, py_or; rewrite H; reflexivity.
  - intros req s.
    destruct req; unfold_handlers.
    all: fold (tokenstore_path w); split_answers.
    all: rewrite ?truthy_tokenstore_path in * by assumption.
    all: repeat split; list_facts.
    all: eexists; (split; [eassumption | apply lookup_insert_eq]).
Qed.

(** With the variable set to [/srv/tokens], that is the path, and a fresh
    login dumps to it; with the variable empty the path is the default; a
    read-only request loads from the path, and a resume dumps to it. *)
Lemma tokenstore_path_read_and_written_witness :
  tokenstore_path Scenario.read_only_disk = "/srv/tokens"
  /\ tokenstore_path Scenario.empty_variable
     = expanduser Scenario.empty_variable "~/.garminconnect"
  /\ In (CallDump (Garmin_of_body Scenario.credentials)
          (tokenstore_path Scenario.read_only_disk))
       (calls (handle Scenario.read_only_disk (PostLogin Scenario.credentials) ∅))
  /\ In (CallLogin Garmin_default (Some (tokenstore_path Scenario.account)))
       (calls (handle Scenario.account GetWhoami ∅))
  /\ In (CallDump Garmin_resume (tokenstore_path Scenario.account))
       (calls (handle Scenario.account
                 (PostLoginResume {| resume_client_state := Scenario.challenge;
                                     mfa_code := "123456" |}) ∅)).
Proof.
  split; [|split; [|split; [|split]]].
  - apply (proj1 (tokenstore_path_read_and_written Scenario.read_only_disk) "/srv/tokens").
    + reflexivity.
    + discriminate.
  - apply (proj1 (proj2 (tokenstore_path_read_and_written Scenario.empty_variable))).
    right. reflexivity.
  - destruct (proj2 (proj2 (tokenstore_path_read_and_written Scenario.read_only_disk))
                (PostLogin Scenario.credentials) ∅) as (_ & _ & _ & _ & Hfresh & _).
    refine (proj1 (Hfresh Scenario.credentials eq_refl _ eq_refl)).
    right; left; reflexivity.
  - destruct (proj2 (proj2 (tokenstore_path_read_and_written Scenario.account))
                GetWhoami ∅) as (_ & _ & Hro & _).
    exact (Hro eq_refl).
  - destruct (proj2 (proj2 (tokenstore_path_read_and_written Scenario.account))
                (PostLoginResume {| resume_client_state := Scenario.challenge;
                                    mfa_code := "123456" |}) ∅)
      as (_ & _ & _ & _ & _ & Hresume).
    exact (proj1 (Hresume _ eq_refl eq_refl)).
Defined.

(** ** The login handshake *)

(** Unfolds the two ways [POST /login] comes to ask the upstream. *)
Ltac asks_upstream w H :=
  let err := fresh "err" in
  let Hload := fresh "Hload" in
  let Hclass := fresh "Hclass" in
  destruct H as [H | (err & Hload & Hclass)];
  [ rewrite H
  | destruct (truthy (os_getenv w "GARMINTOKENS")) eqn:?;
    [rewrite ?truthy_tokenstore_path by assumption|];
    fold (tokenstore_path w) in Hload; rewrite ?Hload;
    cbv beta iota; rewrite ?Hclass ].




(** ** Best-effort persistence *)

(** C6.  Whenever the upstream login itself succeeds, [POST /login]
    returns [{status: "ok"}], whatever [garth.dump] does: nothing is assumed
    of the dump, so the conclusion covers every exception it may raise.  The
    same holds of [POST /login/resume] whenever the upstream accepts the
    code.  The dump is attempted in both. *)
Theorem login_ok_whatever_dump_does (w : Upstream) (s : Store) :
  (forall (body : LoginRequest) (tokens : Tokens),
     login_asks_upstream w s ->
     garmin_login w (Garmin_of_body body) None None = Return tokens ->
     py_eq_str (fst tokens) "needs_mfa" = false ->
     outcome (login w body s) = Return (Some ok_response)
     /\ In (CallDump (Garmin_of_body body) (tokenstore_path w)) (calls (login w body s)))
  /\ (forall (body : ResumeLoginRequest) (tokens : Tokens),
        garmin_resume_login w Garmin_resume (resume_client_state body) (mfa_code body)
        = Return tokens ->
        outcome (resume_login w body s) = Return (Some ok_response)
        /\ In (CallDump Garmin_resume (tokenstore_path w)) (calls (resume_login w body s))).
Proof.
  split.
  - intros body [token1 token2] Hasks Hlogin Hsentinel. cbn [fst] in Hsentinel.
    unfold_handlers. fold (tokenstore_path w).
    asks_upstream w Hasks; rewrite ?Hlogin; cbv beta iota; rewrite ?Hsentinel.
    all: split_answers; split; list_facts.
  - intros body tokens Hresume.
    unfold_handlers. fold (tokenstore_path w). rewrite Hresume.
    split_answers; split; list_facts.
Qed.

(** The token store cannot be written ([PermissionError]); the login is
    answered "ok" all the same. *)
Lemma login_ok_whatever_dump_does_witness :
  garth_dump Scenario.read_only_disk (Garmin_of_body Scenario.credentials) "/srv/tokens"
  = Some (Exc (OtherException "PermissionError") "[Errno 13] Permission denied")
  /\ outcome (login Scenario.read_only_disk Scenario.credentials ∅) = Return (Some ok_response)
  /\ outcome (resume_login Scenario.read_only_disk
               {| resume_client_state := Scenario.challenge; mfa_code := "123456" |} ∅)
     = Return (Some ok_response).
Proof.
  split; [reflexivity|].
  destruct (login_ok_whatever_dump_does Scenario.read_only_disk ∅) as [Hlogin Hresume].
  split.
  - refine (proj1 (Hlogin Scenario.credentials Scenario.oauth_tokens _ eq_refl eq_refl)).
    right. eexists. split; reflexivity.
  - exact (proj1 (Hresume {| resume_client_state := Scenario.challenge; mfa_code := "123456" |}
                    Scenario.oauth_tokens eq_refl)).
Defined.

(** ** The download envelope *)

(** C7.  Every successful [GET /activities/{id}/download] carries the
    request's activity id and format, and a [data_base64] whose base64
    decoding is, byte for byte, what the upstream client returned for that
    activity and format. *)
Theorem download_roundtrip
    (w : Upstream) (id fmt : string) (s : Store) (resp : DownloadResponse) :
  outcome (download_activity w id fmt s) = Return (Some resp) ->
  exists (fmt_enum : DlFmt) (raw : list byte),
    getattr_ActivityDownloadFormat w fmt = Return fmt_enum
    /\ garmin_download_activity w Garmin_default id fmt_enum = Return raw
    /\ Base64.b64decode_str (data_base64 resp) = Some raw
    /\ activity_id resp = id
    /\ format resp = fmt.
Proof.
  unfold_handlers.
  destruct (garmin_login w Garmin_default _ _) as [t|err]; cbv beta iota.
  2: destruct (is_FileNotFoundError err || is_GarminConnectAuthenticationError err);
     cbv beta iota; discriminate.
  destruct (getattr_ActivityDownloadFormat w fmt) as [fmt_enum|err] eqn:Hfmt;
    cbv beta iota.
  2: rewrite raise_from_err_run; discriminate.
  destruct (garmin_download_activity w Garmin_default id fmt_enum) as [raw|err] eqn:Hraw;
    cbv beta iota.
  2: rewrite raise_from_err_run; discriminate.
  rewrite Base64Facts.decode_ascii_b64encode. cbv beta iota. cbn [outcome].
  intros H. injection H as <-. exists fmt_enum, raw. cbn [data_base64 activity_id format].
  rewrite Base64Facts.b64decode_str_b64encode. repeat split; assumption || reflexivity.
Qed.

(** The stored session loads and the upstream returns a GPX file: the
    envelope decodes to that file. *)
Lemma download_roundtrip_witness :
  exists resp,
    outcome (download_activity Scenario.account "42" "GPX" Scenario.logged_in)
    = Return (Some resp)
    /\ Base64.b64decode_str (data_base64 resp) = Some Scenario.gpx.
Proof.
  eexists. split; [reflexivity|].
  destruct (download_roundtrip Scenario.account "42" "GPX" Scenario.logged_in _ eq_refl)
    as (fmt_enum & raw & _ & Hraw & Hdec & _).
  injection Hraw as <-. exact Hdec.
Defined.

(** ** The token store is written only after a successful login *)

(** C8.  A dump is issued only by [POST /login], right after a credential
    login that returned tokens rather than a challenge, and by
    [POST /login/resume], right after a resume that returned.  A request that
    issues no dump leaves the token store as it was; in particular a
    read-only request, a request that fails, and a [POST /login] answered
    "needs_mfa" all leave it unchanged. *)
Theorem token_store_frame (w : Upstream) (req : Request) (s : Store) :
  (forall g p, In (CallDump g p) (calls (handle w req s)) ->
     (exists body tokens pre,
        req = PostLogin body /\ g = Garmin_of_body body
        /\ garmin_login w g None None = Return tokens
        /\ py_eq_str (fst tokens) "needs_mfa" = false
        /\ calls (handle w req s) = pre ++ [CallLogin g None; CallDump g p])
     \/ (exists body tokens,
           req = PostLoginResume body /\ g = Garmin_resume
           /\ garmin_resume_login w g (resume_client_state body) (mfa_code body)
              = Return tokens
           /\ calls (handle w req s)
              = [CallResumeLogin g (resume_client_state body) (mfa_code body);
                 CallDump g p]))
  /\ ((forall g p, ~ In (CallDump g p) (calls (handle w req s))) ->
      store_after (handle w req s) = s)
  /\ (read_only req = true ->
      store_after (handle w req s) = s
      /\ forall g p, ~ In (CallDump g p) (calls (handle w req s)))
  /\ (forall e, outcome (handle w req s) = Raise e ->
      store_after (handle w req s) = s
      /\ forall g p, ~ In (CallDump g p) (calls (handle w req s)))
  /\ (forall r, outcome (handle w req s) = Return (Some (LoginBody r)) ->
      status r = "needs_mfa" ->
      store_after (handle w req s) = s
      /\ forall g p, ~ In (CallDump g p) (calls (handle w req s))).
Proof.
  destruct req; unfold_handlers.
  all: fold (tokenstore_path w); rewrite ?truthy_tokenstore_path by assumption.
  all: split_answers; rewrite ?truthy_tokenstore_path by assumption.
  all: split; [|split; [|split; [|split]]].
  (* where a dump comes from *)
  all: try (intros g' p' Hin; cbn [In] in Hin;
            repeat match type of Hin with
              | _ \/ _ => destruct Hin as [Hin | Hin]
              | False => destruct Hin
              | _ = _ => first [discriminate Hin | injection Hin as <- <-]
              end;
            first
              [ left; eexists _, _, []; repeat split; try eassumption; reflexivity
              | left; eexists _, _, [_]; repeat split; try eassumption; reflexivity
              | right; eexists _, _; repeat split; try eassumption; reflexivity ]).
  (* a run without dump leaves the store *)
  all: try (intros Hnone; first [reflexivity | exfalso; eapply Hnone; cbn [In]; eauto 6]).
  (* read-only requests *)
  all: try (intros Hro; first [discriminate Hro | split; [reflexivity | no_dump]]).
  (* failing requests *)
  all: try (intros e' He; first [discriminate He | split; [reflexivity | no_dump]]).
  (* challenges *)
  all: intros r Hr Hs; first [discriminate Hr | injection Hr as <-];
       first [discriminate Hs | split; [reflexivity | no_dump]].
Qed.

(** A login answered with a challenge, a read-only request and a resume
    with a wrong code leave the token store as they found it; the dump of a
    fresh login follows the credential login that returned tokens. *)
Lemma token_store_frame_witness :
  store_after (handle Scenario.mfa_account (PostLogin Scenario.credentials) ∅) = ∅
  /\ store_after (handle Scenario.account GetWhoami Scenario.logged_in) = Scenario.logged_in
  /\ store_after (handle Scenario.account
                    (PostLoginResume {| resume_client_state := Scenario.challenge;
                                        mfa_code := "000000" |}) ∅) = ∅
  /\ (exists tokens,
        garmin_login Scenario.account (Garmin_of_body Scenario.credentials) None None
        = Return tokens
        /\ py_eq_str (fst tokens) "needs_mfa" = false).
Proof.
  split; [|split; [|split]].
  - destruct (token_store_frame Scenario.mfa_account (PostLogin Scenario.credentials) ∅)
      as (_ & _ & _ & _ & Hchallenge).
    exact (proj1 (Hchallenge {| status := "needs_mfa"; client_state := Scenario.challenge |}
                    eq_refl eq_refl)).
  - destruct (token_store_frame Scenario.account GetWhoami Scenario.logged_in)
      as (_ & _ & Hro & _).
    exact (proj1 (Hro eq_refl)).
  - destruct (token_store_frame Scenario.account
                (PostLoginResume {| resume_client_state := Scenario.challenge;
                                    mfa_code := "000000" |}) ∅)
      as (_ & _ & _ & Hfail & _).
    exact (proj1 (Hfail _ eq_refl)).
  - destruct (token_store_frame Scenario.account (PostLogin Scenario.credentials) ∅)
      as (Hdump & _).
    destruct (Hdump (Garmin_of_body Scenario.credentials) "/home/garmin/.garminconnect")
      as [(body & tokens & pre & Hreq & Hg & Hlogin & Hsentinel & _)
         | (body & tokens & Hreq & _)].
    + right; left; reflexivity.
    + exists tokens. rewrite Hg in Hlogin. injection Hreq as <-. split; assumption.
    + discriminate Hreq.
Defined.

(** ** The shape of login responses *)




(** * Further properties of the handlers *)

(** ** [POST /login]: reuse of the stored session *)

(** X1.  When [GARMINTOKENS] is set and non-empty and the session stored
    there loads, [POST /login] answers "ok" at once: the only call is the
    load, the store is left alone, and the request body plays no part, so
    the credentials are never sent upstream. *)
Theorem login_reuses_stored_session
    (w : Upstream) (body : LoginRequest) (s : Store) (t : Tokens) :
  truthy (os_getenv w "GARMINTOKENS") = true ->
  garmin_login w Garmin_default (Some (tokenstore_path w)) (s !! tokenstore_path w)
  = Return t ->
  login w body s
  = MkRun (Return (Some ok_response)) s [CallLogin Garmin_default (Some (tokenstore_path w))]
  /\ forall body', login w body' s = login w body s.
Proof.
  intros Henv Hload.
  assert (Hrun : forall b, login w b s
            = MkRun (Return (Some ok_response)) s
                [CallLogin Garmin_default (Some (tokenstore_path w))]).
  { intros b. unfold_handlers. rewrite Henv.
    rewrite truthy_tokenstore_path by exact Henv. rewrite Hload. reflexivity. }
  split; [apply Hrun|]. intros body'. rewrite !Hrun. reflexivity.
Qed.

Lemma login_reuses_stored_session_witness :
  login Scenario.read_only_disk Scenario.credentials Scenario.served
  = MkRun (Return (Some ok_response)) Scenario.served
      [CallLogin Garmin_default (Some (tokenstore_path Scenario.read_only_disk))].
Proof.
  exact (proj1 (login_reuses_stored_session Scenario.read_only_disk Scenario.credentials
                  Scenario.served (PyNone, PyNone) eq_refl eq_refl)).
Defined.

(** ** Failing logins *)

(** X2.  When [POST /login] sends the credentials upstream and the upstream
    raises, the request ends with the fault-table row of that exception (401
    "Authentication error" for rejected credentials); the credential login is
    the last call, nothing is dumped and the store is unchanged. *)
Theorem login_failure_translated
    (w : Upstream) (body : LoginRequest) (s : Store) (err : Exception) :
  login_asks_upstream w s ->
  garmin_login w (Garmin_of_body body) None None = Raise err ->
  outcome (login w body s) = Raise (fault_table err)
  /\ store_after (login w body s) = s
  /\ (exists pre, calls (login w body s) = pre ++ [CallLogin (Garmin_of_body body) None]
                  /\ forall g p, ~ In (CallDump g p) pre)
  /\ (exc_class err = GarminConnectAuthenticationError ->
      outcome (login w body s) = Raise (HTTPException 401 "Authentication error")).
Proof.
  intros Hasks Hlogin.
  assert (Hrun : exists pre,
             login w body s
             = MkRun (Raise (fault_table err)) s (pre ++ [CallLogin (Garmin_of_body body) None])
             /\ forall g p, ~ In (CallDump g p) pre).
  { unfold_handlers. asks_upstream w Hasks; rewrite ?Hlogin; cbv beta iota;
      rewrite raise_from_err_run; cbv beta iota.
    - exists []. split; [reflexivity | intros g p []].
    - eexists [_]. split; [reflexivity | cbn; intros g p [? | []]; discriminate].
    - exists []. split; [reflexivity | intros g p []]. }
  destruct Hrun as (pre & Hrun & Hpre). rewrite Hrun. cbn [outcome store_after calls].
  split; [reflexivity|]. split; [reflexivity|]. split.
  - exists pre. split; [reflexivity | exact Hpre].
  - intros Hcls. unfold fault_table. rewrite Hcls. reflexivity.
Qed.

Lemma login_failure_translated_witness :
  outcome (login Scenario.rejected Scenario.credentials ∅)
  = Raise (HTTPException 401 "Authentication error")
  /\ store_after (login Scenario.rejected Scenario.credentials ∅) = ∅.
Proof.
  assert (Hasks : login_asks_upstream Scenario.rejected ∅) by (left; reflexivity).
  destruct (login_failure_translated Scenario.rejected Scenario.credentials ∅
              Scenario.bad_password Hasks eq_refl) as (_ & Hstore & _ & Hauth).
  split; [exact (Hauth eq_refl) | exact Hstore].
Defined.

(** X3.  [POST /login/resume] never looks at the token store before
    resuming and never logs in: its first call is the resume, on a client
    built with [return_on_mfa=True], with the body's challenge state and code.
    When the upstream raises, the request ends with the fault-table row of
    the exception (401 "Authentication error" for a wrong code), nothing is
    dumped and the store is unchanged. *)
Theorem resume_login_failure_translated
    (w : Upstream) (body : ResumeLoginRequest) (s : Store) :
  (forall g ts, ~ In (CallLogin g ts) (calls (resume_login w body s)))
  /\ (exists rest,
        calls (resume_login w body s)
        = CallResumeLogin Garmin_resume (resume_client_state body) (mfa_code body) :: rest)
  /\ (forall err,
        garmin_resume_login w Garmin_resume (resume_client_state body) (mfa_code body)
        = Raise err ->
        resume_login w body s
        = MkRun (Raise (fault_table err)) s
            [CallResumeLogin Garmin_resume (resume_client_state body) (mfa_code body)])
  /\ (forall err,
        garmin_resume_login w Garmin_resume (resume_client_state body) (mfa_code body)
        = Raise err ->
        exc_class err = GarminConnectAuthenticationError ->
        outcome (resume_login w body s) = Raise (HTTPException 401 "Authentication error")).
Proof.
  assert (Hfail : forall err,
            garmin_resume_login w Garmin_resume (resume_client_state body) (mfa_code body)
            = Raise err ->
            resume_login w body s
            = MkRun (Raise (fault_table err)) s
                [CallResumeLogin Garmin_resume (resume_client_state body) (mfa_code body)]).
  { intros err Hresume. unfold_handlers. rewrite Hresume. cbv beta iota.
    rewrite raise_from_err_run. reflexivity. }
  split; [|split; [|split]].
  - unfold_handlers. split_answers; no_dump.
  - unfold_handlers. split_answers; eexists; reflexivity.
  - exact Hfail.
  - intros err Hresume Hcls. rewrite (Hfail err Hresume). cbn [outcome].
    unfold fault_table. rewrite Hcls. reflexivity.
Qed.

Lemma resume_login_failure_translated_witness :
  resume_login Scenario.mfa_account
    {| resume_client_state := Scenario.challenge; mfa_code := "000000" |} Scenario.logged_in
  = MkRun (Raise (HTTPException 401 "Authentication error")) Scenario.logged_in
      [CallResumeLogin Garmin_resume Scenario.challenge "000000"].
Proof.
  destruct (resume_login_failure_translated Scenario.mfa_account
              {| resume_client_state := Scenario.challenge; mfa_code := "000000" |}
              Scenario.logged_in) as (_ & _ & Hfail & _).
  exact (Hfail Scenario.wrong_code eq_refl).
Defined.

(** ** Read-only endpoints with a session *)

(** Rewrites the load of the stored session that opens a read-only handler
    by its answer. *)
Ltac session_loads w Hload :=
  unfold_handlers; fold (tokenstore_path w); rewrite Hload; cbv beta iota.

(** X4.  With a stored session, [GET /summary] and [GET /activities] are
    pass-throughs: one data call on the loaded client with the request's own
    parameters, whose result comes back wrapped in [{data: ...}] and whose
    exception comes back as its fault-table row; the store is unchanged. *)
Theorem data_pass_through (w : Upstream) (s : Store) (t : Tokens) :
  garmin_login w Garmin_default (Some (tokenstore_path w)) (s !! tokenstore_path w)
  = Return t ->
  (forall cdate,
     get_user_summary w cdate s
     = MkRun match garmin_get_user_summary w Garmin_default cdate with
             | Return data => Return (Some {| summary_data := data |})
             | Raise err => Raise (fault_table err)
             end s
         [CallLogin Garmin_default (Some (tokenstore_path w));
          CallGetUserSummary Garmin_default cdate])
  /\ (forall start limit activitytype,
        get_activities w start limit activitytype s
        = MkRun match garmin_get_activities w Garmin_default start limit activitytype with
                | Return data => Return (Some {| activities_data := data |})
                | Raise err => Raise (fault_table err)
                end s
            [CallLogin Garmin_default (Some (tokenstore_path w));
             CallGetActivities Garmin_default start limit activitytype]).
Proof.
  intros Hload. split.
  - intros cdate. session_loads w Hload.
    destruct (garmin_get_user_summary w Garmin_default cdate); cbv beta iota;
      rewrite ?raise_from_err_run; reflexivity.
  - intros start limit activitytype. session_loads w Hload.
    destruct (garmin_get_activities w Garmin_default start limit activitytype);
      cbv beta iota; rewrite ?raise_from_err_run; reflexivity.
Qed.

Lemma data_pass_through_witness :
  get_activities Scenario.account 40 20 (Some "running") Scenario.logged_in
  = MkRun (Return (Some {| activities_data := PyList [] |})) Scenario.logged_in
      [CallLogin Garmin_default (Some (tokenstore_path Scenario.account));
       CallGetActivities Garmin_default 40 20 (Some "running")].
Proof.
  exact (proj2 (data_pass_through Scenario.account Scenario.logged_in (PyNone, PyNone) eq_refl)
           40 20 (Some "running")).
Defined.

(** X5.  [GET /whoami] asks for the full name first and for the unit system
    second.  If the first call raises, the second is never made; either
    exception comes back as its fault-table row, and only when both calls
    return is there a response, which holds both results. *)
Theorem whoami_evaluation_order (w : Upstream) (s : Store) (t : Tokens) :
  garmin_login w Garmin_default (Some (tokenstore_path w)) (s !! tokenstore_path w)
  = Return t ->
  (forall err,
     garmin_get_full_name w Garmin_default = Raise err ->
     whoami w s
     = MkRun (Raise (fault_table err)) s
         [CallLogin Garmin_default (Some (tokenstore_path w));
          CallGetFullName Garmin_default])
  /\ (forall name err,
        garmin_get_full_name w Garmin_default = Return name ->
        garmin_get_unit_system w Garmin_default = Raise err ->
        whoami w s
        = MkRun (Raise (fault_table err)) s
            [CallLogin Garmin_default (Some (tokenstore_path w));
             CallGetFullName Garmin_default; CallGetUnitSystem Garmin_default])
  /\ (forall name units,
        garmin_get_full_name w Garmin_default = Return name ->
        garmin_get_unit_system w Garmin_default = Return units ->
        whoami w s
        = MkRun (Return (Some {| full_name := name; unit_system := units |})) s
            [CallLogin Garmin_default (Some (tokenstore_path w));
             CallGetFullName Garmin_default; CallGetUnitSystem Garmin_default]).
Proof.
  intros Hload. split; [|split].
  - intros err Hname. session_loads w Hload. rewrite Hname. cbv beta iota.
    rewrite raise_from_err_run. reflexivity.
  - intros name err Hname Hunits. session_loads w Hload. rewrite Hname, Hunits.
    cbv beta iota. rewrite raise_from_err_run. reflexivity.
  - intros name units Hname Hunits. session_loads w Hload. rewrite Hname, Hunits.
    reflexivity.
Qed.

Lemma whoami_evaluation_order_witness :
  whoami Scenario.nameless Scenario.logged_in
  = MkRun (Raise (HTTPException 500 "'fullName'")) Scenario.logged_in
      [CallLogin Garmin_default (Some (tokenstore_path Scenario.nameless));
       CallGetFullName Garmin_default]
  /\ whoami Scenario.account Scenario.logged_in
     = MkRun (Return (Some {| full_name := PyStr "A. Runner"; unit_system := PyStr "metric" |}))
         Scenario.logged_in
         [CallLogin Garmin_default (Some (tokenstore_path Scenario.account));
          CallGetFullName Garmin_default; CallGetUnitSystem Garmin_default].
Proof.
  split.
  - exact (proj1 (whoami_evaluation_order Scenario.nameless Scenario.logged_in
                    (PyNone, PyNone) eq_refl) Scenario.no_full_name eq_refl).
  - exact (proj2 (proj2 (whoami_evaluation_order Scenario.account Scenario.logged_in
                           (PyNone, PyNone) eq_refl))
             (PyStr "A. Runner") (PyStr "metric") eq_refl eq_refl).
Defined.

(** ** The download format *)

(** The names of the enumeration, with their members. *)
Lemma getattr_member (w : Upstream) (fmt : string) (m : ActivityDownloadFormat) :
  In (fmt, m) [("ORIGINAL", ORIGINAL); ("TCX", TCX); ("GPX", GPX); ("KML", KML); ("CSV", CSV)] ->
  getattr_ActivityDownloadFormat w fmt = Return (Member m).
Proof.
  cbn [In]. intros H.
  repeat (destruct H as [H | H]; [injection H as <- <-; reflexivity|]).
  destruct H.
Qed.

Lemma getattr_other (w : Upstream) (fmt : string) :
  ~ In fmt ["ORIGINAL"; "TCX"; "GPX"; "KML"; "CSV"] ->
  getattr_ActivityDownloadFormat w fmt
  = match enum_getattr_other w fmt with
    | None => Return (ClassAttr fmt)
    | Some err => Raise err
    end.
Proof.
  intros Hother. unfold getattr_ActivityDownloadFormat.
  repeat (rewrite bool_decide_eq_false_2;
          [|intros ->; apply Hother; cbn [In]; tauto]).
  reflexivity.
Qed.

(** X6.  The format is not validated before the handler runs: a name that
    is neither one of ORIGINAL, TCX, GPX, KML, CSV (in this spelling) nor an
    attribute of the enum class fails the attribute lookup inside the guarded
    block, so the request ends with the fault-table row of that exception
    (500 with its message for an [AttributeError]) and the upstream download
    is never called. *)
Theorem download_format_not_validated
    (w : Upstream) (id fmt : string) (s : Store) (t : Tokens) (err : Exception) :
  garmin_login w Garmin_default (Some (tokenstore_path w)) (s !! tokenstore_path w)
  = Return t ->
  ~ In fmt ["ORIGINAL"; "TCX"; "GPX"; "KML"; "CSV"] ->
  enum_getattr_other w fmt = Some err ->
  download_activity w id fmt s
  = MkRun (Raise (fault_table err)) s [CallLogin Garmin_default (Some (tokenstore_path w))].
Proof.
  intros Hload Hother Herr.
  pose proof (getattr_other w fmt Hother) as Hattr. rewrite Herr in Hattr.
  session_loads w Hload. rewrite Hattr. cbv beta iota.
  rewrite raise_from_err_run. reflexivity.
Qed.

(** The lower-case spelling of a member is not a member. *)
Lemma download_format_not_validated_witness :
  download_activity Scenario.account "42" "tcx" Scenario.logged_in
  = MkRun (Raise (HTTPException 500 "tcx")) Scenario.logged_in
      [CallLogin Garmin_default (Some (tokenstore_path Scenario.account))].
Proof.
  refine (download_format_not_validated Scenario.account "42" "tcx" Scenario.logged_in
            (PyNone, PyNone) (Exc (OtherException "AttributeError") "tcx") eq_refl _ eq_refl).
  cbn [In]. intros H. repeat (destruct H as [H | H]; [discriminate H|]). exact H.
Defined.

(** X7.  With a stored session, a member of the enumeration and upstream
    bytes, the download always succeeds: encoding the payload cannot fail.
    The response echoes the request's id and format, the only data call is
    the download in that format, the store is unchanged, and [data_base64]
    has four characters for every three bytes of the payload, rounded up. *)
Theorem download_succeeds
    (w : Upstream) (id fmt : string) (s : Store) (t : Tokens)
    (m : ActivityDownloadFormat) (raw : list byte) :
  garmin_login w Garmin_default (Some (tokenstore_path w)) (s !! tokenstore_path w)
  = Return t ->
  In (fmt, m) [("ORIGINAL", ORIGINAL); ("TCX", TCX); ("GPX", GPX); ("KML", KML); ("CSV", CSV)] ->
  garmin_download_activity w Garmin_default id (Member m) = Return raw ->
  exists text,
    download_activity w id fmt s
    = MkRun (Return (Some {| activity_id := id; format := fmt; data_base64 := text |})) s
        [CallLogin Garmin_default (Some (tokenstore_path w));
         CallDownloadActivity Garmin_default id (Member m)]
    /\ String.length text = (4 * ((length raw + 2) / 3))%nat
    /\ Base64.b64decode_str text = Some raw.
Proof.
  intros Hload Hmember Hraw.
  exists (String.string_of_list_byte (Base64.b64encode raw)). split; [|split].
  - session_loads w Hload. rewrite (getattr_member w fmt m Hmember). cbv beta iota.
    rewrite Hraw. cbv beta iota. rewrite Base64Facts.decode_ascii_b64encode. reflexivity.
  - rewrite Base64Facts.string_of_list_byte_length. apply Base64Facts.b64encode_length.
  - apply Base64Facts.b64decode_str_b64encode.
Qed.

Lemma download_succeeds_witness :
  exists text,
    outcome (download_activity Scenario.account "42" "GPX" Scenario.logged_in)
    = Return (Some {| activity_id := "42"; format := "GPX"; data_base64 := text |})
    /\ String.length text = 16%nat.
Proof.
  destruct (download_succeeds Scenario.account "42" "GPX" Scenario.logged_in
              (PyNone, PyNone) GPX Scenario.gpx eq_refl) as (text & Hrun & Hlen & _).
  - right; right; left; reflexivity.
  - reflexivity.
  - exists text. rewrite Hrun. split; [reflexivity | exact Hlen].
Defined.

(** ** What every request does and does not do *)

(** X8.  No handler retries or repeats a library call: the calls of a
    request are pairwise distinct, and there are at most three of them. *)
Theorem no_call_repeated (w : Upstream) (req : Request) (s : Store) :
  List.NoDup (calls (handle w req s))
  /\ (length (calls (handle w req s)) <= 3)%nat.
Proof.
  destruct req; unfold_handlers.
  all: split_answers.
  all: split; [|cbn [length]; lia].
  all: repeat (constructor; [cbn [In]; intuition discriminate|]).
  all: constructor.
Qed.

(** X9.  A request writes the token store at the resolved path or not at
    all: what the store holds at any other path is what it held before. *)
Theorem store_changes_only_at_path
    (w : Upstream) (req : Request) (s : Store) (path : string) :
  path <> tokenstore_path w ->
  store_after (handle w req s) !! path = s !! path.
Proof.
  intros Hpath.
  destruct req; unfold_handlers.
  all: fold (tokenstore_path w); split_answers.
  all: try reflexivity.
  all: apply lookup_insert_ne; congruence.
Qed.

Lemma store_changes_only_at_path_witness :
  store_after (handle Scenario.account (PostLogin Scenario.credentials) Scenario.served)
    !! "/srv/tokens"
  = Scenario.served !! "/srv/tokens".
Proof.
  apply (store_changes_only_at_path Scenario.account (PostLogin Scenario.credentials)
           Scenario.served "/srv/tokens").
  discriminate.
Defined.

(** X10.  The library calls of a request carry the request's own data.
    Credentials go upstream only from [POST /login], on a client built from
    the four fields of its body; a login is resumed only by
    [POST /login/resume], with its body's challenge state and code; a stored
    session is loaded, and data is fetched, only on the default client
    [Garmin()], and each data call is the one of its endpoint with the
    request's parameters. *)
Theorem calls_carry_the_request (w : Upstream) (req : Request) (s : Store) :
  (forall g, In (CallLogin g None) (calls (handle w req s)) ->
     exists body, req = PostLogin body /\ g = Garmin_of_body body)
  /\ (forall g cs code, In (CallResumeLogin g cs code) (calls (handle w req s)) ->
        req = PostLoginResume {| resume_client_state := cs; mfa_code := code |}
        /\ g = Garmin_resume)
  /\ (forall g p, In (CallLogin g (Some p)) (calls (handle w req s)) -> g = Garmin_default)
  /\ (forall g cdate, In (CallGetUserSummary g cdate) (calls (handle w req s)) ->
        req = GetSummary cdate /\ g = Garmin_default)
  /\ (forall g start limit activitytype,
        In (CallGetActivities g start limit activitytype) (calls (handle w req s)) ->
        req = GetActivities start limit activitytype /\ g = Garmin_default)
  /\ (forall g id fmt_enum,
        In (CallDownloadActivity g id fmt_enum) (calls (handle w req s)) ->
        exists fmt, req = GetDownload id fmt
                    /\ getattr_ActivityDownloadFormat w fmt = Return fmt_enum
                    /\ g = Garmin_default)
  /\ (forall g, In (CallGetFullName g) (calls (handle w req s))
                \/ In (CallGetUnitSystem g) (calls (handle w req s)) ->
        req = GetWhoami /\ g = Garmin_default).
Proof.
  destruct req as [|body|[cs code]| | | |]; unfold_handlers.
  all: cbn [resume_client_state mfa_code].
  all: split_answers.
  all: repeat split; list_facts.
Qed.

Lemma calls_carry_the_request_witness :
  exists body,
    PostLogin Scenario.credentials = PostLogin body
    /\ Garmin_of_body Scenario.credentials = Garmin_of_body body.
Proof.
  apply (proj1 (calls_carry_the_request Scenario.account (PostLogin Scenario.credentials) ∅)).
  left. reflexivity.
Defined.

(** ** From a login to the requests after it *)

(** X11.  A fresh login whose dump completes leaves its tokens at the
    resolved path, so that afterwards, as long as the upstream accepts those
    tokens when they are loaded, no read-only request is answered "Not logged
    in", and [GET /summary] is answered from the upstream's data. *)
Theorem login_then_read_only
    (w : Upstream) (body : LoginRequest) (s : Store) (tokens t : Tokens) :
  login_asks_upstream w s ->
  garmin_login w (Garmin_of_body body) None None = Return tokens ->
  py_eq_str (fst tokens) "needs_mfa" = false ->
  garth_dump w (Garmin_of_body body) (tokenstore_path w) = None ->
  garmin_login w Garmin_default (Some (tokenstore_path w)) (Some tokens) = Return t ->
  store_after (login w body s) !! tokenstore_path w = Some tokens
  /\ (forall req, read_only req = true ->
        outcome (handle w req (store_after (login w body s)))
        <> Raise (HTTPException 401 "Not logged in. Use /login first."))
  /\ (forall cdate data,
        garmin_get_user_summary w Garmin_default cdate = Return data ->
        outcome (get_user_summary w cdate (store_after (login w body s)))
        = Return (Some {| summary_data := data |})).
Proof.
  intros Hasks Hlogin Hsentinel Hdump Hload.
  assert (Hstore : store_after (login w body s) !! tokenstore_path w = Some tokens).
  { destruct tokens as [token1 token2]. cbn [fst] in Hsentinel.
    unfold_handlers. fold (tokenstore_path w).
    asks_upstream w Hasks; rewrite ?Hlogin; cbv beta iota; rewrite ?Hsentinel, ?Hdump;
      cbv beta iota; cbn [store_after]; apply lookup_insert_eq. }
  revert Hstore. generalize (store_after (login w body s)). intros s1 Hstore.
  split; [exact Hstore|].
  rewrite <- Hstore in Hload. split.
  - intros req Hro.
    destruct req; try discriminate Hro; session_loads w Hload.
    all: split_answers; try discriminate.
    all: intros Heq; injection Heq as Heq; unfold fault_table in Heq.
    all: destruct (exc_class _); discriminate Heq.
  - intros cdate data Hdata. session_loads w Hload. rewrite Hdata. reflexivity.
Qed.

Lemma login_then_read_only_witness :
  outcome (get_user_summary Scenario.account "2024-01-01"
             (store_after (login Scenario.account Scenario.credentials ∅)))
  = Return (Some {| summary_data := PyDict [("totalSteps", PyInt 9000)] |}).
Proof.
  assert (Hasks : login_asks_upstream Scenario.account ∅) by (left; reflexivity).
  destruct (login_then_read_only Scenario.account Scenario.credentials ∅
              Scenario.oauth_tokens (PyNone, PyNone) Hasks eq_refl eq_refl eq_refl eq_refl)
    as (_ & _ & Hsummary).
  exact (Hsummary "2024-01-01" _ eq_refl).
Defined.

(** ** The unguarded load *)

(** X12.  The load of the stored session sits outside every [try] block.
    Whatever it raises, other than [FileNotFoundError] and
    [GarminConnectAuthenticationError], leaves the handler unchanged and
    untranslated, a rate limit included; this holds of the read-only
    handlers and of [POST /login] when [GARMINTOKENS] is set and non-empty.
    No other call is made. *)
Theorem load_exception_propagates
    (w : Upstream) (req : Request) (s : Store) (err : Exception) :
  read_only req = true
  \/ (exists body, req = PostLogin body /\ truthy (os_getenv w "GARMINTOKENS") = true) ->
  garmin_login w Garmin_default (Some (tokenstore_path w)) (s !! tokenstore_path w)
  = Raise err ->
  (is_FileNotFoundError err || is_GarminConnectAuthenticationError err) = false ->
  handle w req s
  = MkRun (Raise (Unhandled err)) s [CallLogin Garmin_default (Some (tokenstore_path w))].
Proof.
  intros [Hro | (body & -> & Henv)] Hload Hclass.
  - apply load_failure_escapes; assumption.
  - unfold_handlers. rewrite Henv. rewrite truthy_tokenstore_path by exact Henv.
    rewrite Hload. cbv beta iota. rewrite Hclass. reflexivity.
Qed.

(** A rate limit met while the stored session is loaded is not answered
    429, neither by [GET /activities] nor by [POST /login]. *)
Lemma load_exception_propagates_witness :
  outcome (handle Scenario.throttled (GetActivities 0 20 None) Scenario.served)
  = Raise (Unhandled Scenario.rate_limit)
  /\ outcome (handle Scenario.throttled (PostLogin Scenario.credentials) Scenario.served)
     = Raise (Unhandled Scenario.rate_limit).
Proof.
  split.
  - rewrite (load_exception_propagates Scenario.throttled (GetActivities 0 20 None)
               Scenario.served Scenario.rate_limit (or_introl eq_refl) eq_refl eq_refl).
    reflexivity.
  - rewrite (load_exception_propagates Scenario.throttled (PostLogin Scenario.credentials)
               Scenario.served Scenario.rate_limit
               (or_intror (ex_intro _ Scenario.credentials (conj eq_refl eq_refl)))
               eq_refl eq_refl).
    reflexivity.
Defined.

(** X13.  Every way a request can end.  A handler never runs off its end:
    what it returns is a response.  An [HTTPException] it raises is one of
    the five mapped responses.  Any other exception that leaves it was raised
    by the load of the stored session, is of a class the resolver does not
    catch, and the request is read-only or a [POST /login] with
    [GARMINTOKENS] set and non-empty. *)
Theorem request_ends (w : Upstream) (req : Request) (s : Store) :
  outcome (handle w req s) <> Return None
  /\ (forall code detail,
        outcome (handle w req s) = Raise (HTTPException code detail) ->
        mapped (HTTPException code detail))
  /\ (forall err,
        outcome (handle w req s) = Raise (Unhandled err) ->
        garmin_login w Garmin_default (Some (tokenstore_path w)) (s !! tokenstore_path w)
        = Raise err
        /\ (is_FileNotFoundError err || is_GarminConnectAuthenticationError err) = false
        /\ (read_only req = true
            \/ exists body, req = PostLogin body
                            /\ truthy (os_getenv w "GARMINTOKENS") = true)).
Proof.
  pose proof (request_outcomes w req s) as H.
  destruct (outcome (handle w req s)) as [resp | [code detail | err]].
  - split; [congruence|]. split; intros; discriminate.
  - split; [discriminate|]. split.
    + intros code' detail' Heq. injection Heq as <- <-. exact H.
    + intros; discriminate.
  - split; [discriminate|]. split; [intros; discriminate|].
    intros err' Heq. injection Heq as <-. exact H.
Qed.

(** Wrong credentials end in a mapped response. *)
Lemma request_ends_witness :
  mapped (HTTPException 401 "Authentication error").
Proof.
  apply (proj1 (proj2 (request_ends Scenario.rejected (PostLogin Scenario.credentials) ∅))).
  reflexivity.
Defined.
